(** * Managed-cluster reconciliation (azure/services/managedclusters)

    A shallow embedding of [managedclusters.go]: the desired-resource
    construction inside [Service.Reconcile], the create / update / blocked
    decision taken on the provider's answer, and [Service.Delete].

    The provider client is an interface in the Go code; here it is a record
    of response functions over an abstract provider state, and every call
    that the service issues is appended to a log so that statements such as
    "no mutating call is issued" can be read off the final state.

    Tracing spans ([tele]) and logging ([klog]) have no influence on the
    returned values or on the calls issued, and are left out. *)

From stdpp Require Import gmap strings list.
From Stdlib Require Import ZArith Lia Ascii.

Local Open Scope Z_scope.

(** ** Go strings as byte sequences *)

Definition byte_of (c : ascii) : Z := Z.of_N (N_of_ascii c).
Definition char_of (b : Z) : ascii := ascii_of_N (Z.to_N b).

(** [len(s)] *)
Definition len (s : string) : Z := Z.of_nat (String.length s).

(** [s[i]], for an index that the caller has checked to be in range. *)
Definition at_ (s : string) (i : Z) : Z :=
  match String.get (Z.to_nat i) s with
  | Some c => byte_of c
  | None => 0
  end.

(** [s[i:]] *)
Fixpoint from_nat (n : nat) (s : string) : string :=
  match n, s with
  | O, _ => s
  | S n', String _ s' => from_nat n' s'
  | S _, EmptyString => EmptyString
  end.
Definition from (i : Z) (s : string) : string := from_nat (Z.to_nat i) s.

(** [s[:i]] *)
Fixpoint upto_nat (n : nat) (s : string) : string :=
  match n, s with
  | O, _ => EmptyString
  | S n', String c s' => String c (upto_nat n' s')
  | S _, EmptyString => EmptyString
  end.
Definition upto (i : Z) (s : string) : string := upto_nat (Z.to_nat i) s.

(** ** The parts of Go's package [net] that [Reconcile] calls

    [net.ParseCIDR] and [IP.String] belong to the Go standard library
    (go1.16: ip.go, parse.go), not to the repository.  They are written out
    here function by function so that the derived DNS address can be
    computed on concrete inputs. *)
Module net.

(** [type IP []byte], [type IPMask []byte]; a byte is a [Z] in [0, 256). *)
Definition IP := list Z.
Definition IPMask := list Z.
Record IPNet := { IPNet_IP : IP; IPNet_Mask : IPMask }.

Record ParseError := { ParseError_Type : string; ParseError_Text : string }.

Definition IPv4len : Z := 4.
Definition IPv6len : Z := 16.
Definition big : Z := 0xFFFFFF.

(** [byte(n)] on a non-negative [int]. *)
Definition byte (n : Z) : Z := n mod 256.

(** [p[i] = v] on a slice whose length the caller guarantees. *)
Definition set (i : Z) (v : Z) (p : list Z) : list Z := <[Z.to_nat i := v]> p.
(** [p[i]] likewise. *)
Definition get (p : list Z) (i : Z) : Z := p !!! Z.to_nat i.

(** parse.go, [dtoi]: decimal to integer; number, characters consumed,
    success. *)
Definition dtoi_end (n i : Z) : Z * Z * bool :=
  if i =? 0 then (0, 0, false) else (n, i, true).

Fixpoint dtoi_loop (s : string) (n i : Z) : Z * Z * bool :=
  match s with
  | String ch s' =>
      let b := byte_of ch in
      if (48 <=? b) && (b <=? 57) then
        let n := n * 10 + (b - 48) in
        if big <=? n then (big, i, false) else dtoi_loop s' n (i + 1)
      else dtoi_end n i
  | EmptyString => dtoi_end n i
  end.

Definition dtoi (s : string) : Z * Z * bool := dtoi_loop s 0 0.

(** parse.go, [xtoi]: hexadecimal to integer. *)
Definition xtoi_end (n i : Z) : Z * Z * bool :=
  if i =? 0 then (0, i, false) else (n, i, true).

Fixpoint xtoi_loop (s : string) (n i : Z) : Z * Z * bool :=
  match s with
  | String ch s' =>
      let b := byte_of ch in
      let digit :=
        if (48 <=? b) && (b <=? 57) then Some (b - 48)
        else if (97 <=? b) && (b <=? 102) then Some (b - 97 + 10)
        else if (65 <=? b) && (b <=? 70) then Some (b - 65 + 10)
        else None in
      match digit with
      | Some d =>
          let n := n * 16 + d in
          if big <=? n then (0, i, false) else xtoi_loop s' n (i + 1)
      | None => xtoi_end n i
      end
  | EmptyString => xtoi_end n i
  end.

Definition xtoi (s : string) : Z * Z * bool := xtoi_loop s 0 0.

(** ip.go, [IPv4]: the 16-byte form of the address a.b.c.d. *)
Definition v4InV6Prefix : list Z := [0; 0; 0; 0; 0; 0; 0; 0; 0; 0; 0xff; 0xff].

Definition IPv4 (a b c d : Z) : IP := v4InV6Prefix ++ [a; b; c; d].

(** ip.go, [parseIPv4]: [left] counts the iterations that remain of
    [for i := 0; i < IPv4len; i++], so that [i = 4 - left]. *)
Fixpoint parseIPv4_loop (left : nat) (i : Z) (s : string) (p : list Z)
  : option (list Z) :=
  match left with
  | O => if len s =? 0 then Some p else None
  | S left' =>
      if len s =? 0 then None (* missing octets *)
      else
        let after_dot :=
          if 0 <? i then
            if at_ s 0 =? 46 then Some (from 1 s) else None
          else Some s in
        match after_dot with
        | None => None
        | Some s =>
            let '(n, c, ok) := dtoi s in
            if negb ok || (0xFF <? n) then None
            else parseIPv4_loop left' (i + 1) (from c s) (set i (byte n) p)
        end
  end.

Definition parseIPv4 (s : string) : option IP :=
  match parseIPv4_loop 4 0 s [0; 0; 0; 0] with
  | Some p => Some (IPv4 (get p 0) (get p 1) (get p 2) (get p 3))
  | None => None
  end.

(** ip.go, [parseIPv6].  The loop [for i < IPv6len] advances [i] by two
    on every iteration that does not leave it, so it runs at most eight
    times; [left] counts the iterations that remain, and the guard of the
    loop is tested as in the source. *)
Fixpoint parseIPv6_loop (left : nat) (ip : IP) (i ellipsis : Z) (s : string)
  : option (IP * Z * Z * string) :=
  match left with
  | O => Some (ip, i, ellipsis, s)
  | S left' =>
      if IPv6len <=? i then Some (ip, i, ellipsis, s)
      else
        let '(n, c, ok) := xtoi s in
        if negb ok || (0xFFFF <? n) then None
        else if (c <? len s) && (at_ s c =? 46) then
          (* followed by a dot: might be a trailing IPv4 address *)
          if (ellipsis <? 0) && negb (i =? IPv6len - IPv4len) then None
          else if IPv6len <? i + IPv4len then None
          else
            match parseIPv4 s with
            | None => None
            | Some ip4 =>
                let ip := set i (get ip4 12) ip in
                let ip := set (i + 1) (get ip4 13) ip in
                let ip := set (i + 2) (get ip4 14) ip in
                let ip := set (i + 3) (get ip4 15) ip in
                Some (ip, i + IPv4len, ellipsis, ""%string)
            end
        else
          (* save this 16-bit chunk *)
          let ip := set i (byte (Z.shiftr n 8)) ip in
          let ip := set (i + 1) (byte n) ip in
          let i := i + 2 in
          let s := from c s in
          if len s =? 0 then Some (ip, i, ellipsis, s)
          else if negb (at_ s 0 =? 58) || (len s =? 1) then None
          else
            let s := from 1 s in
            if at_ s 0 =? 58 then
              if 0 <=? ellipsis then None (* already have one *)
              else
                let ellipsis := i in
                let s := from 1 s in
                if len s =? 0 then Some (ip, i, ellipsis, s)
                else parseIPv6_loop left' ip i ellipsis s
            else parseIPv6_loop left' ip i ellipsis s
  end.

(** [for j := i - 1; j >= ellipsis; j-- { ip[j+n] = ip[j] }] *)
Fixpoint expand_move (count : nat) (j n : Z) (ip : IP) : IP :=
  match count with
  | O => ip
  | S k => expand_move k (j - 1) n (set (j + n) (get ip j) ip)
  end.

(** [for j := ellipsis + n - 1; j >= ellipsis; j-- { ip[j] = 0 }] *)
Fixpoint expand_zero (count : nat) (j : Z) (ip : IP) : IP :=
  match count with
  | O => ip
  | S k => expand_zero k (j - 1) (set j 0 ip)
  end.

Definition parseIPv6 (s : string) : option IP :=
  let ip := replicate 16 0 in
  let lead := (2 <=? len s) && (at_ s 0 =? 58) && (at_ s 1 =? 58) in
  let ellipsis := if lead then 0 else -1 in
  let s := if lead then from 2 s else s in
  if lead && (len s =? 0) then Some ip (* only the ellipsis *)
  else
    match parseIPv6_loop 8 ip 0 ellipsis s with
    | None => None
    | Some (ip, i, ellipsis, s) =>
        if negb (len s =? 0) then None (* must have used entire string *)
        else if i <? IPv6len then
          if ellipsis <? 0 then None
          else
            let n := IPv6len - i in
            let ip := expand_move (Z.to_nat (i - ellipsis)) (i - 1) n ip in
            let ip := expand_zero (Z.to_nat n) (ellipsis + n - 1) ip in
            Some ip
        else if 0 <=? ellipsis then None
        else Some ip
    end.

(** ip.go, [CIDRMask]; a nil mask is the empty list. *)
Fixpoint CIDRMask_loop (l : nat) (n : Z) : IPMask :=
  match l with
  | O => []
  | S l' =>
      if 8 <=? n then 0xff :: CIDRMask_loop l' (n - 8)
      else Z.lxor 0xff (Z.shiftr 0xff n) :: CIDRMask_loop l' 0
  end.

Definition CIDRMask (ones bits : Z) : IPMask :=
  if negb (bits =? 8 * IPv4len) && negb (bits =? 8 * IPv6len) then []
  else if (ones <? 0) || (bits <? ones) then []
  else CIDRMask_loop (Z.to_nat (bits / 8)) ones.

Definition llen (p : list Z) : Z := Z.of_nat (length p).
Definition allFF (b : list Z) : bool := forallb (fun c => c =? 0xff) b.
Definition isZeros (p : list Z) : bool := forallb (fun c => c =? 0) p.
Definition bytesEqual (a b : list Z) : bool := bool_decide (a = b).

(** ip.go, [IP.Mask]; a nil result is the empty list. *)
Definition Mask (ip : IP) (mask : IPMask) : IP :=
  let mask :=
    if (llen mask =? IPv6len) && (llen ip =? IPv4len) && allFF (take 12 mask)
    then drop 12 mask else mask in
  let ip :=
    if (llen mask =? IPv4len) && (llen ip =? IPv6len)
       && bytesEqual (take 12 ip) v4InV6Prefix
    then drop 12 ip else ip in
  if negb (llen ip =? llen mask) then []
  else zip_with Z.land ip mask.

(** bytealg [IndexByteString]: index of the first [c] in [s], or -1. *)
Fixpoint IndexByteString_from (s : string) (c : Z) (i : Z) : Z :=
  match s with
  | String ch s' => if byte_of ch =? c then i else IndexByteString_from s' c (i + 1)
  | EmptyString => -1
  end.
Definition IndexByteString (s : string) (c : Z) : Z := IndexByteString_from s c 0.

(** ip.go, [ParseCIDR]: the address as written, and the network it
    implies; or a [ParseError]. *)
Definition ParseCIDR (s : string) : (IP * IPNet) + ParseError :=
  let err := inr {| ParseError_Type := "CIDR address"; ParseError_Text := s |} in
  let i := IndexByteString s 47 in
  if i <? 0 then err
  else
    let addr := upto i s in
    let mask := from (i + 1) s in
    let '(iplen, ip) :=
      match parseIPv4 addr with
      | Some ip => (IPv4len, Some ip)
      | None => (IPv6len, parseIPv6 addr)
      end in
    let '(n, i, ok) := dtoi mask in
    match ip with
    | None => err
    | Some ip =>
        if negb ok || negb (i =? len mask) || (n <? 0) || (8 * iplen <? n) then err
        else
          let m := CIDRMask n (8 * iplen) in
          inl (ip, {| IPNet_IP := Mask ip m; IPNet_Mask := m |})
    end.

(** ip.go, [IP.To4]; a nil result is the empty list. *)
Definition To4 (ip : IP) : IP :=
  if llen ip =? IPv4len then ip
  else if (llen ip =? IPv6len) && isZeros (take 10 ip)
          && (get ip 10 =? 0xff) && (get ip 11 =? 0xff)
  then take 4 (drop 12 ip)
  else [].

(** ip.go, [ubtoa]: the decimal text of a byte. *)
Definition ubtoa (v : Z) : string :=
  if v <? 10 then String (char_of (v + 48)) EmptyString
  else if v <? 100 then
    String (char_of (v / 10 + 48)) (String (char_of (v mod 10 + 48)) EmptyString)
  else
    String (char_of (v / 100 + 48))
      (String (char_of ((v / 10) mod 10 + 48))
         (String (char_of (v mod 10 + 48)) EmptyString)).

(** [hexDigit[v]] for [v < 16]. *)
Definition hexDigit (v : Z) : ascii :=
  if v <? 10 then char_of (v + 48) else char_of (v - 10 + 97).

Definition push (dst : string) (c : ascii) : string :=
  String.append dst (String c EmptyString).

(** ip.go, [appendHex]: [for j := 7; j >= 0; j--]. *)
Fixpoint appendHex_loop (count : nat) (j : Z) (i : Z) (dst : string) : string :=
  match count with
  | O => dst
  | S k =>
      let v := Z.shiftr i (j * 4) in
      let dst := if 0 <? v then push dst (hexDigit (Z.land v 0xf)) else dst in
      appendHex_loop k (j - 1) i dst
  end.

Definition appendHex (dst : string) (i : Z) : string :=
  if i =? 0 then push dst "0"%char else appendHex_loop 8 7 i dst.

(** ip.go, [hexString]. *)
Fixpoint hexString (b : list Z) : string :=
  match b with
  | [] => EmptyString
  | tn :: b' =>
      String (hexDigit (Z.shiftr tn 4)) (String (hexDigit (Z.land tn 0xf)) (hexString b'))
  end.

(** The inner loop of [IP.String] that walks over a run of zero groups:
    [for j < IPv6len && p[j] == 0 && p[j+1] == 0 { j += 2 }]. *)
Fixpoint zero_run (left : nat) (p : IP) (j : Z) : Z :=
  match left with
  | O => j
  | S k =>
      if (j <? IPv6len) && (get p j =? 0) && (get p (j + 1) =? 0)
      then zero_run k p (j + 2) else j
  end.

(** The outer loop that finds the longest run of zeros, [e0, e1). *)
Fixpoint longest_run (left : nat) (p : IP) (i e0 e1 : Z) : Z * Z :=
  match left with
  | O => (e0, e1)
  | S k =>
      if negb (i <? IPv6len) then (e0, e1)
      else
        let j := zero_run 8 p i in
        if (i <? j) && (e1 - e0 <? j - i) then longest_run k p (j + 2) i j
        else longest_run k p (i + 2) e0 e1
  end.

(** The printing loop of [IP.String], with [::] in place of the run. *)
Fixpoint print_groups (left : nat) (p : IP) (i e0 e1 : Z) (b : string) : string :=
  match left with
  | O => b
  | S k =>
      if negb (i <? IPv6len) then b
      else
        let group i := Z.lor (Z.shiftl (get p i) 8) (get p (i + 1)) in
        if i =? e0 then
          let b := push (push b ":"%char) ":"%char in
          let i := e1 in
          if IPv6len <=? i then b
          else print_groups k p (i + 2) e0 e1 (appendHex b (group i))
        else
          let b := if 0 <? i then push b ":"%char else b in
          print_groups k p (i + 2) e0 e1 (appendHex b (group i))
  end.

(** ip.go, [IP.String]. *)
Definition IP_String (ip : IP) : string :=
  if llen ip =? 0 then "<nil>"%string
  else
    let p4 := To4 ip in
    if llen p4 =? IPv4len then
      String.append (ubtoa (get p4 0))
        (String.append "." (String.append (ubtoa (get p4 1))
           (String.append "." (String.append (ubtoa (get p4 2))
              (String.append "." (ubtoa (get p4 3)))))))
    else if negb (llen ip =? IPv6len) then String.append "?" (hexString ip)
    else
      let '(e0, e1) := longest_run 8 ip 0 (-1) (-1) in
      (* "::" is not used to shorten just one 16-bit zero field *)
      let '(e0, e1) := if e1 - e0 <=? 2 then (-1, -1) else (e0, e1) in
      print_groups 8 ip 0 e0 e1 EmptyString.

End net.

(** ** Errors

    Go's [error] values, as far as this package creates or inspects them.
    A Go [error] that may be nil is an [option error]. *)
Inductive error : Type :=
| errorString (msg : string)
    (** [errors.New(msg)] *)
| parseError (e : net.ParseError)
    (** [*net.ParseError] *)
| providerError (notFound : bool) (msg : string)
    (** an error produced by the provider client; [notFound] records whether
        the provider reported that the resource does not exist *)
| wrapError (msg : string) (err : error)
    (** [fmt.Errorf] with a [%w] verb: the formatted message and the wrapped
        error *)
| withMessage (cause : error) (msg : string).
    (** [errors.Wrap(cause, msg)] of github.com/pkg/errors *)

(** The [Error()] method. *)
Fixpoint Error (e : error) : string :=
  match e with
  | errorString msg => msg
  | parseError pe =>
      String.append "invalid "
        (String.append (net.ParseError_Type pe)
           (String.append ": " (net.ParseError_Text pe)))
  | providerError _ msg => msg
  | wrapError msg _ => msg
  | withMessage cause msg => String.append msg (String.append ": " (Error cause))
  end.

(** [fmt.Errorf(prefix + "%w", err)] *)
Definition Errorf_w (prefix : string) (err : error) : error :=
  wrapError (String.append prefix (Error err)) err.

(** [errors.Wrap(err, msg)]; wrapping nil gives nil. *)
Definition Wrap (err : option error) (msg : string) : option error :=
  match err with
  | Some e => Some (withMessage e msg)
  | None => None
  end.

(** Modelled from the spec: [azure.ResourceNotFound] is defined in the
    repository's [azure] package, outside the source file embedded here.
    Section 6 of the specification asks of a provider error only that it be
    "distinguishable as not found vs other failure"; that is the flag a
    [providerError] carries, looked up through any wrapping.  No error
    (nil) is not "not found". *)
Fixpoint notFound (e : error) : bool :=
  match e with
  | providerError nf _ => nf
  | wrapError _ err => notFound err
  | withMessage cause _ => notFound cause
  | errorString _ | parseError _ => false
  end.

Definition ResourceNotFound (err : option error) : bool :=
  match err with
  | Some e => notFound e
  | None => false
  end.

(** ** The data model *)

(** [PoolSpec] and [Spec] of managedclusters.go; [int32] fields are [Z]. *)
Record PoolSpec := {
  PoolSpec_Name : string;
  SKU : string;
  Replicas : Z;
  OSDiskSizeGB : Z
}.

Record Spec := {
  Name : string;
  ResourceGroupName : string;
  NodeResourceGroupName : string;
  VnetSubnetID : string;
  Location : string;
  Tags : gmap string string;
  Version : string;
  LoadBalancerSKU : string;
  NetworkPlugin : string;
  NetworkPolicy : string;
  SSHPublicKey : string;
  AgentPools : list PoolSpec;
  PodCIDR : string;
  ServiceCIDR : string;
  DNSServiceIP : option string
}.

(** The [spec interface{}] argument of the service methods: a [*Spec], which
    may be a nil pointer, or a value of any other dynamic type. *)
Inductive Iface : Type :=
| SpecPtr (s : option Spec)
| OtherValue.

(** The types of the Azure SDK package [containerservice] (2021-05-01),
    restricted to the fields that this package writes or reads.  A pointer
    field is an [option]; enumeration types are strings in the SDK. *)
Module containerservice.

Record ManagedClusterIdentity := { Identity_Type : string }.

Record SSHPublicKey := { KeyData : option string }.

Record SSHConfiguration := { PublicKeys : option (list SSHPublicKey) }.

Record LinuxProfile := {
  AdminUsername : option string;
  SSH : option SSHConfiguration
}.

Record ManagedClusterServicePrincipalProfile := { ClientID : option string }.

Record ManagedClusterAgentPoolProfile := {
  Pool_Name : option string;
  VMSize : option string;
  OsDiskSizeGB : option Z;
  Count : option Z;
  Pool_Type : string;
  Pool_VnetSubnetID : option string;
  Mode : string
}.

Record NetworkProfile := {
  NetworkPlugin : string;
  NetworkPolicy : string;
  LoadBalancerSku : string;
  PodCidr : option string;
  ServiceCidr : option string;
  DNSServiceIP : option string
}.

Record ManagedClusterProperties := {
  ProvisioningState : option string;
  KubernetesVersion : option string;
  DNSPrefix : option string;
  NodeResourceGroup : option string;
  LinuxProfile_ : option LinuxProfile;
  ServicePrincipalProfile : option ManagedClusterServicePrincipalProfile;
  AgentPoolProfiles : option (list ManagedClusterAgentPoolProfile);
  NetworkProfile_ : option NetworkProfile
}.

Record ManagedCluster := {
  Identity : option ManagedClusterIdentity;
  Location : option string;
  Tags : gmap string (option string);
  ManagedClusterProperties_ : option ManagedClusterProperties
}.

Definition ResourceIdentityTypeSystemAssigned : string := "SystemAssigned".
Definition AgentPoolTypeVirtualMachineScaleSets : string := "VirtualMachineScaleSets".
Definition AgentPoolModeSystem : string := "System".

#[global] Instance SSHPublicKey_eq_dec : EqDecision SSHPublicKey.
Proof. solve_decision. Defined.
#[global] Instance SSHConfiguration_eq_dec : EqDecision SSHConfiguration.
Proof. solve_decision. Defined.
#[global] Instance LinuxProfile_eq_dec : EqDecision LinuxProfile.
Proof. solve_decision. Defined.
#[global] Instance ServicePrincipalProfile_eq_dec :
  EqDecision ManagedClusterServicePrincipalProfile.
Proof. solve_decision. Defined.
#[global] Instance AgentPoolProfile_eq_dec : EqDecision ManagedClusterAgentPoolProfile.
Proof. solve_decision. Defined.
#[global] Instance NetworkProfile_eq_dec : EqDecision NetworkProfile.
Proof. solve_decision. Defined.
#[global] Instance ManagedClusterProperties_eq_dec : EqDecision ManagedClusterProperties.
Proof. solve_decision. Defined.

End containerservice.

(** ** Results, panics and the provider client *)

(** A run-time panic of the Go program. *)
Inductive panic : Type :=
| NilDereference
| IndexOutOfRange (index length : Z).

(** What a piece of Go code that returns [error] can do: go on with a value,
    return a non-nil error, or panic. *)
Inductive result (A : Type) : Type :=
| Ok (a : A)
| Err (e : error)
| Panic (p : panic).
Arguments Ok {A} a.
Arguments Err {A} e.
Arguments Panic {A} p.

(** [*p] for a pointer that may be nil. *)
Definition deref {A : Type} (p : option A) : result A :=
  match p with
  | Some a => Ok a
  | None => Panic NilDereference
  end.

(** [p[i] = v] on a slice, with Go's bounds check. *)
Definition index_set (p : list Z) (i v : Z) : result (list Z) :=
  if (0 <=? i) && (i <? net.llen p) then Ok (<[Z.to_nat i := v]> p)
  else Panic (IndexOutOfRange i (net.llen p)).

(** The calls that reach the provider, in the order they are issued. *)
Inductive Call : Type :=
| CallGet (group name : string)
| CallCreateOrUpdate (group name : string) (mc : containerservice.ManagedCluster)
| CallDelete (group name : string)
| CallGetCredentials (group name : string).

(** The calls that change the resource on the provider's side. *)
Definition mutating (c : Call) : bool :=
  match c with
  | CallCreateOrUpdate _ _ _ | CallDelete _ _ => true
  | CallGet _ _ | CallGetCredentials _ _ => false
  end.

Definition is_CreateOrUpdate (c : Call) : bool :=
  match c with
  | CallCreateOrUpdate _ _ _ => true
  | _ => false
  end.

(** The [Client] interface of the service over a provider state [P].  The
    two reads answer from the state without changing it; the two writes
    return the state that follows.  The [context.Context] argument carries
    only cancellation and tracing and is left out. *)
Record Client (P : Type) : Type := {
  client_Get : string -> string -> P -> containerservice.ManagedCluster * option error;
  client_CreateOrUpdate :
    string -> string -> containerservice.ManagedCluster -> P -> option error * P;
  client_Delete : string -> string -> P -> option error * P;
  client_GetCredentials : string -> string -> P -> list Z * option error
}.
Arguments client_Get {P} _ _ _ _.
Arguments client_CreateOrUpdate {P} _ _ _ _ _.
Arguments client_Delete {P} _ _ _ _.
Arguments client_GetCredentials {P} _ _ _ _.

(** The provider's state together with the log of calls issued so far. *)
Record World (P : Type) : Type := {
  provider : P;
  calls : list Call
}.
Arguments provider {P} _.
Arguments calls {P} _.
Arguments Build_World {P} _ _.

(** Computations of the service: they read and change the world and end in
    a [result]. *)
Definition M (P A : Type) : Type := World P -> result A * World P.

Definition ret {P A : Type} (a : A) : M P A := fun w => (Ok a, w).

Definition bind {P A B : Type} (m : M P A) (k : A -> M P B) : M P B :=
  fun w =>
    match m w with
    | (Ok a, w') => k a w'
    | (Err e, w') => (Err e, w')
    | (Panic p, w') => (Panic p, w')
    end.

(** A pure step that may fail or panic. *)
Definition lift {P A : Type} (r : result A) : M P A := fun w => (r, w).

(** [return err] in a function whose only result is an [error]. *)
Definition return_ {P : Type} (err : option error) : M P unit :=
  match err with
  | Some e => lift (Err e)
  | None => ret tt
  end.

Declare Scope go_scope.
Delimit Scope go_scope with go.
Notation "x <- m ;; k" := (bind m (fun x => k))
  (at level 100, m at next level, right associativity) : go_scope.

(** ** Package-level values *)

Definition defaultUser : string := "azureuser".
Definition managedIdentity : string := "msi".

(** Modelled from the spec: the provisioning-state constants [Canceled],
    [Failed] and [Succeeded] are declared in the repository's api/v1alpha4
    package, outside the source file embedded here.  The specification
    names the three terminal states "Succeeded, Failed, Canceled". *)
Module infrav1alpha4.
Definition Canceled : string := "Canceled".
Definition Failed : string := "Failed".
Definition Succeeded : string := "Succeeded".
End infrav1alpha4.

(** [to.StringMapPtr]: every value of the map behind a fresh pointer. *)
Definition StringMapPtr (ms : gmap string string) : gmap string (option string) :=
  Some <$> ms.

(** [cmp.Diff(x, y) == ""]: go-cmp reports no difference exactly when the
    two values are deeply equal; pointers are compared through what they
    point to.  The text of a non-empty report is only logged. *)
Definition diff_is_empty (x y : containerservice.ManagedClusterProperties) : bool :=
  bool_decide (x = y).

(** ** The desired managed cluster (managedclusters.go, lines 126-193)

    The part of [Reconcile] that builds the local variable [managedCluster]
    from the spec, before any call to the provider.  It either yields the
    resource or makes [Reconcile] return the parse error. *)

(** Lines 150-154, then 158-160: the network profile literal, and the pod
    CIDR when one is requested. *)
Definition networkProfile_initial (s : Spec) : containerservice.NetworkProfile :=
  {| containerservice.NetworkPlugin := NetworkPlugin s;
     containerservice.LoadBalancerSku := LoadBalancerSKU s;
     containerservice.NetworkPolicy := NetworkPolicy s;
     containerservice.PodCidr :=
       if bool_decide (PodCIDR s <> ""%string) then Some (PodCIDR s) else None;
     containerservice.ServiceCidr := None;
     containerservice.DNSServiceIP := None |}.

Definition set_ServiceCidr (v : option string) (np : containerservice.NetworkProfile)
  : containerservice.NetworkProfile :=
  {| containerservice.NetworkPlugin := containerservice.NetworkPlugin np;
     containerservice.LoadBalancerSku := containerservice.LoadBalancerSku np;
     containerservice.NetworkPolicy := containerservice.NetworkPolicy np;
     containerservice.PodCidr := containerservice.PodCidr np;
     containerservice.ServiceCidr := v;
     containerservice.DNSServiceIP := containerservice.DNSServiceIP np |}.

Definition set_DNSServiceIP (v : option string) (np : containerservice.NetworkProfile)
  : containerservice.NetworkProfile :=
  {| containerservice.NetworkPlugin := containerservice.NetworkPlugin np;
     containerservice.LoadBalancerSku := containerservice.LoadBalancerSku np;
     containerservice.NetworkPolicy := containerservice.NetworkPolicy np;
     containerservice.PodCidr := containerservice.PodCidr np;
     containerservice.ServiceCidr := containerservice.ServiceCidr np;
     containerservice.DNSServiceIP := v |}.

(** Lines 162-179: service CIDR and DNS service IP. *)
Definition networkProfile (s : Spec) : result containerservice.NetworkProfile :=
  let np := networkProfile_initial s in
  if bool_decide (ServiceCIDR s <> ""%string) then
    match DNSServiceIP s with
    | None =>
        let np := set_ServiceCidr (Some (ServiceCIDR s)) np in
        match net.ParseCIDR (ServiceCIDR s) with
        | inr err =>
            Err (Errorf_w "failed to parse service cidr: " (parseError err))
        | inl (ip, _) =>
            (* HACK: set the last octet of the IP to .10 *)
            match index_set ip 15 (net.byte 10) with
            | Ok ip =>
                let dnsIP := net.IP_String ip in
                Ok (set_DNSServiceIP (Some dnsIP) np)
            | Err e => Err e
            | Panic p => Panic p
            end
        end
    | Some dns => Ok (set_DNSServiceIP (Some dns) np)
    end
  else Ok np.

(** Lines 181-193: one profile per pool, appended in order. *)
Definition agentPoolProfile (s : Spec) (pool : PoolSpec)
  : containerservice.ManagedClusterAgentPoolProfile :=
  {| containerservice.Pool_Name := Some (PoolSpec_Name pool);
     containerservice.VMSize := Some (SKU pool);
     containerservice.OsDiskSizeGB := Some (OSDiskSizeGB pool);
     containerservice.Count := Some (Replicas pool);
     containerservice.Pool_Type := containerservice.AgentPoolTypeVirtualMachineScaleSets;
     containerservice.Pool_VnetSubnetID := Some (VnetSubnetID s);
     containerservice.Mode := containerservice.AgentPoolModeSystem |}.

Definition agentPoolProfiles (s : Spec)
  : list containerservice.ManagedClusterAgentPoolProfile :=
  fold_left (fun profiles pool => profiles ++ [agentPoolProfile s pool])
    (AgentPools s) [].

(** Lines 136-145. *)
Definition linuxProfile (s : Spec) : containerservice.LinuxProfile :=
  {| containerservice.AdminUsername := Some defaultUser;
     containerservice.SSH :=
       Some {| containerservice.PublicKeys :=
                 Some [ {| containerservice.KeyData := Some (SSHPublicKey s) |} ] |} |}.

(** Lines 126-193 as a whole. *)
Definition managedCluster (s : Spec) : result containerservice.ManagedCluster :=
  match networkProfile s with
  | Ok np =>
      Ok {| containerservice.Identity :=
              Some {| containerservice.Identity_Type :=
                        containerservice.ResourceIdentityTypeSystemAssigned |};
            containerservice.Location := Some (Location s);
            containerservice.Tags := StringMapPtr (Tags s);
            containerservice.ManagedClusterProperties_ :=
              Some {| containerservice.ProvisioningState := None;
                      containerservice.KubernetesVersion := Some (Version s);
                      containerservice.DNSPrefix := Some (Name s);
                      containerservice.NodeResourceGroup := Some (NodeResourceGroupName s);
                      containerservice.LinuxProfile_ := Some (linuxProfile s);
                      containerservice.ServicePrincipalProfile :=
                        Some {| containerservice.ClientID := Some managedIdentity |};
                      containerservice.AgentPoolProfiles := Some (agentPoolProfiles s);
                      containerservice.NetworkProfile_ := Some np |} |}
  | Err e => Err e
  | Panic p => Panic p
  end.

(** [&containerservice.ManagedClusterProperties{KubernetesVersion: v}] *)
Definition normalized (v : option string) : containerservice.ManagedClusterProperties :=
  {| containerservice.ProvisioningState := None;
     containerservice.KubernetesVersion := v;
     containerservice.DNSPrefix := None;
     containerservice.NodeResourceGroup := None;
     containerservice.LinuxProfile_ := None;
     containerservice.ServicePrincipalProfile := None;
     containerservice.AgentPoolProfiles := None;
     containerservice.NetworkProfile_ := None |}.

(** The message of the error returned for a cluster in a non-terminal
    state, [fmt.Sprintf("... Actual state: %s", ps)]. *)
Definition non_terminal_prefix : string :=
  "Unable to update existing managed cluster in non terminal state. Managed cluster must be in one of the following provisioning states: canceled, failed, or succeeded. Actual state: ".

Definition non_terminal_msg (ps : string) : string :=
  String.append non_terminal_prefix ps.

(** ** The service *)
Section Service.

Context {P : Type}.
Variable Client_ : Client P.

Local Open Scope go_scope.

(** The four operations of [s.Client], each leaving its call in the log. *)
Definition Client_Get (group name : string)
  : M P (containerservice.ManagedCluster * option error) :=
  fun w =>
    (Ok (client_Get Client_ group name (provider w)),
     Build_World (provider w) (calls w ++ [CallGet group name])).

Definition Client_CreateOrUpdate (group name : string)
  (mc : containerservice.ManagedCluster) : M P (option error) :=
  fun w =>
    let '(err, p) := client_CreateOrUpdate Client_ group name mc (provider w) in
    (Ok err, Build_World p (calls w ++ [CallCreateOrUpdate group name mc])).

Definition Client_Delete (group name : string) : M P (option error) :=
  fun w =>
    let '(err, p) := client_Delete Client_ group name (provider w) in
    (Ok err, Build_World p (calls w ++ [CallDelete group name])).

Definition Client_GetCredentials (group name : string)
  : M P (list Z * option error) :=
  fun w =>
    (Ok (client_GetCredentials Client_ group name (provider w)),
     Build_World (provider w) (calls w ++ [CallGetCredentials group name])).

(** The type assertion of [spec] to a pointer to [Spec], followed by the
    first use of a field through that pointer. *)
Definition as_Spec (spec : Iface) (not_ok : error) : M P Spec :=
  match spec with
  | OtherValue => lift (Err not_ok)
  | SpecPtr p => lift (deref p)
  end.

(** [Service.Get]: the resource and the error of the client, or the error
    for a spec of the wrong type. *)
Definition Get (spec : Iface)
  : M P (containerservice.ManagedCluster * option error) :=
  managedClusterSpec <- as_Spec spec (errorString "expected managed cluster specification") ;;
  Client_Get (ResourceGroupName managedClusterSpec) (Name managedClusterSpec).

(** [Service.GetCredentials] *)
Definition GetCredentials (group name : string) : M P (list Z * option error) :=
  Client_GetCredentials group name.

(** [Service.Reconcile] *)
Definition Reconcile (spec : Iface) : M P unit :=
  managedClusterSpec <- as_Spec spec (errorString "expected managed cluster specification") ;;
  managedCluster <- lift (managedCluster managedClusterSpec) ;;
  got <- Client_Get (ResourceGroupName managedClusterSpec) (Name managedClusterSpec) ;;
  let '(existingMC, err) := got in
  if bool_decide (err <> None) && negb (ResourceNotFound err) then
    return_ (Wrap err "failed to get existing managed cluster")
  else
    let isCreate := ResourceNotFound err in
    if isCreate then
      err <- Client_CreateOrUpdate (ResourceGroupName managedClusterSpec)
               (Name managedClusterSpec) managedCluster ;;
      match err with
      | Some e => return_ (Some (Errorf_w "failed to create managed cluster, " e))
      | None => return_ None
      end
    else
      existingProperties <- lift (deref (containerservice.ManagedClusterProperties_ existingMC)) ;;
      ps <- lift (deref (containerservice.ProvisioningState existingProperties)) ;;
      if bool_decide (ps <> infrav1alpha4.Canceled)
         && bool_decide (ps <> infrav1alpha4.Failed)
         && bool_decide (ps <> infrav1alpha4.Succeeded) then
        return_ (Some (errorString (non_terminal_msg ps)))
      else
        desiredProperties <- lift (deref (containerservice.ManagedClusterProperties_ managedCluster)) ;;
        let propertiesNormalized :=
          normalized (containerservice.KubernetesVersion desiredProperties) in
        let existingMCPropertiesNormalized :=
          normalized (containerservice.KubernetesVersion existingProperties) in
        if negb (diff_is_empty propertiesNormalized existingMCPropertiesNormalized) then
          err <- Client_CreateOrUpdate (ResourceGroupName managedClusterSpec)
                   (Name managedClusterSpec) managedCluster ;;
          match err with
          | Some e => return_ (Some (Errorf_w "failed to update managed cluster, " e))
          | None => return_ None
          end
        else return_ None.

(** [Service.Delete] *)
Definition Delete (spec : Iface) : M P unit :=
  managedClusterSpec <- as_Spec spec (errorString "expected managed cluster specification") ;;
  err <- Client_Delete (ResourceGroupName managedClusterSpec) (Name managedClusterSpec) ;;
  if bool_decide (err <> None) then
    if ResourceNotFound err then
      (* already deleted *)
      return_ None
    else
      return_ (Wrap err
        (String.append "failed to delete managed cluster "
           (String.append (Name managedClusterSpec)
              (String.append " in resource group " (ResourceGroupName managedClusterSpec)))))
  else return_ None.

End Service.

(** ** Reading the built resource *)

(** [mc.NetworkProfile], through the embedded properties pointer. *)
Definition built_NetworkProfile (mc : containerservice.ManagedCluster)
  : option containerservice.NetworkProfile :=
  match containerservice.ManagedClusterProperties_ mc with
  | Some props => containerservice.NetworkProfile_ props
  | None => None
  end.

Definition built_DNSServiceIP (mc : containerservice.ManagedCluster) : option string :=
  match built_NetworkProfile mc with
  | Some np => containerservice.DNSServiceIP np
  | None => None
  end.

Definition built_ServiceCidr (mc : containerservice.ManagedCluster) : option string :=
  match built_NetworkProfile mc with
  | Some np => containerservice.ServiceCidr np
  | None => None
  end.

Definition built_LinuxProfile (mc : containerservice.ManagedCluster)
  : option containerservice.LinuxProfile :=
  match containerservice.ManagedClusterProperties_ mc with
  | Some props => containerservice.LinuxProfile_ props
  | None => None
  end.

(** [*mc.LinuxProfile.SSH.PublicKeys] *)
Definition built_PublicKeys (mc : containerservice.ManagedCluster)
  : option (list containerservice.SSHPublicKey) :=
  match built_LinuxProfile mc with
  | Some lp =>
      match containerservice.SSH lp with
      | Some ssh => containerservice.PublicKeys ssh
      | None => None
      end
  | None => None
  end.

(** The three provisioning states in which an update may be sent. *)
Definition is_terminal (ps : string) : bool :=
  bool_decide (ps = infrav1alpha4.Succeeded)
  || bool_decide (ps = infrav1alpha4.Failed)
  || bool_decide (ps = infrav1alpha4.Canceled).

(** The world once the calls [new] have been issued without a change on the
    provider's side. *)
Definition logged {P : Type} (w : World P) (new : list Call) : World P :=
  Build_World (provider w) (calls w ++ new).

(** The calls of a log that change the resource. *)
Definition mutating_calls (log : list Call) : list Call := List.filter mutating log.

(** ** The specification's wording, for comparison with the code *)

(** Section 4.1: "derive a DNS service IP by taking the network's base
    address and overwriting its final octet (IPv4) with the literal value
    10". *)
Definition spec_dnsServiceIP (serviceCIDR : string) : option string :=
  match net.ParseCIDR serviceCIDR with
  | inl (_, n) =>
      let base := net.IPNet_IP n in
      Some (net.IP_String (<[Nat.pred (length base) := 10]> base))
  | inr _ => None
  end.

(** Section 4.1 as the claim reads it: "SSH public key list contains exactly
    the spec's sshPublicKey if non-empty", and no entry otherwise. *)
Definition spec_PublicKeys (s : Spec) : list containerservice.SSHPublicKey :=
  if bool_decide (SSHPublicKey s <> ""%string)
  then [ {| containerservice.KeyData := Some (SSHPublicKey s) |} ]
  else [].

(** The dotted text of the IPv4 address a.b.c.d. *)
Definition dotted (a b c d : Z) : string :=
  String.append (net.ubtoa a)
    (String.append "." (String.append (net.ubtoa b)
       (String.append "." (String.append (net.ubtoa c)
          (String.append "." (net.ubtoa d)))))).

(** ** Sample inputs *)

(** A spec with one agent pool; the variants below change the fields that
    the properties are about. *)
Definition sample_spec (sshKey serviceCIDR : string) (dns : option string) : Spec :=
  {| Name := "my-cluster";
     ResourceGroupName := "my-rg";
     NodeResourceGroupName := "MC_my-rg_my-cluster_westus2";
     VnetSubnetID := "/subscriptions/0/resourceGroups/my-rg/subnets/nodes";
     Location := "westus2";
     Tags := {[ "env"%string := "test"%string ]};
     Version := "1.21.2";
     LoadBalancerSKU := "Standard";
     NetworkPlugin := "azure";
     NetworkPolicy := "azure";
     SSHPublicKey := sshKey;
     AgentPools :=
       [ {| PoolSpec_Name := "pool0"; SKU := "Standard_D2s_v3";
            Replicas := 3; OSDiskSizeGB := 128 |} ];
     PodCIDR := "";
     ServiceCIDR := serviceCIDR;
     DNSServiceIP := dns |}.

Definition spec_16 : Spec := sample_spec "ssh-rsa AAAA" "10.0.0.0/16" None.
Definition spec_host_bits : Spec := sample_spec "ssh-rsa AAAA" "10.0.5.7/16" None.
Definition spec_explicit_dns : Spec :=
  sample_spec "ssh-rsa AAAA" "10.0.0.0/16" (Some "10.0.0.10"%string).
Definition spec_bad_cidr : Spec := sample_spec "ssh-rsa AAAA" "not-a-cidr" None.
Definition spec_bad_cidr_explicit_dns : Spec :=
  sample_spec "ssh-rsa AAAA" "not-a-cidr" (Some "10.0.0.10"%string).
Definition spec_no_key : Spec := sample_spec "" "" None.

(** A resource as the provider may report it. *)
Definition existing_cluster (state version : option string)
  : containerservice.ManagedCluster :=
  {| containerservice.Identity := None;
     containerservice.Location := Some "westus2"%string;
     containerservice.Tags := ∅;
     containerservice.ManagedClusterProperties_ :=
       Some {| containerservice.ProvisioningState := state;
               containerservice.KubernetesVersion := version;
               containerservice.DNSPrefix := None;
               containerservice.NodeResourceGroup := None;
               containerservice.LinuxProfile_ := None;
               containerservice.ServicePrincipalProfile := None;
               containerservice.AgentPoolProfiles := None;
               containerservice.NetworkProfile_ := None |} |}.

(** A resource without its properties block. *)
Definition bare_cluster : containerservice.ManagedCluster :=
  {| containerservice.Identity := None;
     containerservice.Location := None;
     containerservice.Tags := ∅;
     containerservice.ManagedClusterProperties_ := None |}.

(** A client that answers every call in the same way, whatever the state. *)
Definition scripted (got : containerservice.ManagedCluster * option error)
  (createOrUpdate delete : option error) : Client unit :=
  {| client_Get := fun _ _ _ => got;
     client_CreateOrUpdate := fun _ _ _ p => (createOrUpdate, p);
     client_Delete := fun _ _ p => (delete, p);
     client_GetCredentials := fun _ _ _ => ([], None) |}.

Definition not_found : error := providerError true "ResourceNotFound".
Definition throttled : error := providerError false "TooManyRequests".

(** The world before the first call. *)
Definition start : World unit := Build_World tt [].

(** The desired resource of a spec whose serviceCIDR parses. *)
Definition built (s : Spec) : containerservice.ManagedCluster :=
  match managedCluster s with
  | Ok mc => mc
  | Err _ | Panic _ => bare_cluster
  end.

(** Scripted clients: the resource is absent; Get fails for another reason;
    the resource is being created; it is settled at the version of the
    sample spec; it is reported without a provisioning state, or without
    its properties block. *)
Definition absent_client : Client unit :=
  scripted (bare_cluster, Some not_found) None None.
Definition create_rejected_client : Client unit :=
  scripted (bare_cluster, Some not_found) (Some throttled) None.
Definition failing_get_client : Client unit :=
  scripted (bare_cluster, Some throttled) None None.
Definition creating_client : Client unit :=
  scripted (existing_cluster (Some "Creating"%string) (Some "1.21.2"%string), None) None None.
Definition up_to_date_client : Client unit :=
  scripted (existing_cluster (Some "Succeeded"%string) (Some "1.21.2"%string), None) None None.
Definition stateless_client : Client unit :=
  scripted (existing_cluster None (Some "1.21.2"%string), None) None None.
Definition bare_client : Client unit :=
  scripted (bare_cluster, None) None None.

(** Scripted clients for Delete: the resource is already gone; the provider
    refuses for another reason. *)
Definition delete_gone_client : Client unit :=
  scripted (bare_cluster, None) None (Some not_found).
Definition delete_failing_client : Client unit :=
  scripted (bare_cluster, None) None (Some throttled).

(** A provider that keeps one resource per state.  [CreateOrUpdate] stores
    what it is sent and reports it from then on in the provisioning state
    [state]: "Succeeded" for a provider that completes the request before
    it answers, "Creating" for one that only accepts it. *)
Definition stored (state : string) (mc : containerservice.ManagedCluster)
  : containerservice.ManagedCluster :=
  {| containerservice.Identity := containerservice.Identity mc;
     containerservice.Location := containerservice.Location mc;
     containerservice.Tags := containerservice.Tags mc;
     containerservice.ManagedClusterProperties_ :=
       match containerservice.ManagedClusterProperties_ mc with
       | Some props =>
           Some {| containerservice.ProvisioningState := Some state;
                   containerservice.KubernetesVersion := containerservice.KubernetesVersion props;
                   containerservice.DNSPrefix := containerservice.DNSPrefix props;
                   containerservice.NodeResourceGroup := containerservice.NodeResourceGroup props;
                   containerservice.LinuxProfile_ := containerservice.LinuxProfile_ props;
                   containerservice.ServicePrincipalProfile :=
                     containerservice.ServicePrincipalProfile props;
                   containerservice.AgentPoolProfiles := containerservice.AgentPoolProfiles props;
                   containerservice.NetworkProfile_ := containerservice.NetworkProfile_ props |}
       | None => None
       end |}.

Definition store (state : string) : Client (option containerservice.ManagedCluster) :=
  {| client_Get := fun _ _ p =>
       match p with
       | Some mc => (mc, None)
       | None => (bare_cluster, Some not_found)
       end;
     client_CreateOrUpdate := fun _ _ mc _ => (None, Some (stored state mc));
     client_Delete := fun _ _ p =>
       match p with
       | Some _ => (None, None)
       | None => (Some not_found, None)
       end;
     client_GetCredentials := fun _ _ _ => ([], None) |}.

(** Two invocations of Reconcile in succession. *)
Definition Reconcile_twice {P : Type} (c : Client P) (spec : Iface) : M P unit :=
  bind (Reconcile c spec) (fun _ => Reconcile c spec).

(** ** Further readings of a run, and further sample inputs *)

(** The calls that one run of [m] from the world [w] adds to the log. *)
Definition new_calls {P A : Type} (m : M P A) (w : World P) : list Call :=
  drop (length (calls w)) (calls (snd (m w))).

(** The last byte of a slice. *)
Definition last_byte (p : list Z) : Z := p !!! Nat.pred (length p).

(** A spec that names a DNS service IP but no service CIDR. *)
Definition spec_dns_without_cidr : Spec :=
  sample_spec "ssh-rsa AAAA" "" (Some "10.0.0.10"%string).

(** A spec with a pod CIDR and two agent pools. *)
Definition spec_with_pods : Spec :=
  {| Name := "my-cluster";
     ResourceGroupName := "my-rg";
     NodeResourceGroupName := "MC_my-rg_my-cluster_westus2";
     VnetSubnetID := "/subscriptions/0/resourceGroups/my-rg/subnets/nodes";
     Location := "westus2";
     Tags := {[ "env"%string := "test"%string ]};
     Version := "1.21.2";
     LoadBalancerSKU := "Standard";
     NetworkPlugin := "kubenet";
     NetworkPolicy := "calico";
     SSHPublicKey := "ssh-rsa AAAA";
     AgentPools :=
       [ {| PoolSpec_Name := "pool0"; SKU := "Standard_D2s_v3";
            Replicas := 3; OSDiskSizeGB := 128 |};
         {| PoolSpec_Name := "pool1"; SKU := "Standard_D4s_v3";
            Replicas := 1; OSDiskSizeGB := 64 |} ];
     PodCIDR := "192.168.0.0/16";
     ServiceCIDR := "10.0.0.0/16";
     DNSServiceIP := None |}.

(** Scripted clients: the resource is settled at an older version; the same
    with a provider that rejects the write; the resource failed and reports
    no version at all. *)
Definition outdated_client : Client unit :=
  scripted (existing_cluster (Some "Succeeded"%string) (Some "1.20.7"%string), None) None None.
Definition update_rejected_client : Client unit :=
  scripted (existing_cluster (Some "Succeeded"%string) (Some "1.20.7"%string), None)
    (Some throttled) None.
Definition unversioned_client : Client unit :=
  scripted (existing_cluster (Some "Failed"%string) None, None) None None.

(** A string that does not begin with a decimal digit (the empty string
    included): where [dtoi] stops reading. *)
Definition not_digit_first (s : string) : bool :=
  match s with
  | String ch _ => negb ((48 <=? byte_of ch) && (byte_of ch <=? 57))
  | EmptyString => true
  end.

(** A value that fits a byte. *)
Definition is_byte (b : Z) : Prop := 0 <= b < 256.

(** The provider reports the resource of the spec as settled: Get succeeds,
    the provisioning state is Succeeded, Failed or Canceled, and the diff of
    the normalized properties (the Kubernetes version alone) against the
    spec is empty. *)
Definition settled {P : Type} (c : Client P) (s : Spec) (p : P) : bool :=
  match client_Get c (ResourceGroupName s) (Name s) p with
  | (existing, None) =>
      match containerservice.ManagedClusterProperties_ existing with
      | Some props =>
          match containerservice.ProvisioningState props with
          | Some ps =>
              is_terminal ps
              && diff_is_empty (normalized (Some (Version s)))
                   (normalized (containerservice.KubernetesVersion props))
          | None => false
          end
      | None => false
      end
  | (_, Some _) => false
  end.

(** * Properties *)

(** ** The parsed address is sixteen bytes long

    [Reconcile] writes to [ip[15]]; the write is in range because every
    address that [net.ParseCIDR] returns has the 16-byte form. *)
Section ParsedLength.

Local Ltac split_ifs :=
  repeat match goal with
    | H : context [if ?b then _ else _] |- _ => destruct b eqn:?
    | H : context [match ?x with _ => _ end] |- _ => destruct x eqn:?
    end.

Lemma set_length (i v : Z) (p : list Z) : length (net.set i v p) = length p.
Proof. unfold net.set. apply length_insert. Qed.

Lemma IPv4_length (a b c d : Z) : length (net.IPv4 a b c d) = 16%nat.
Proof. reflexivity. Qed.

Lemma parseIPv4_length (s : string) (ip : net.IP) :
  net.parseIPv4 s = Some ip -> length ip = 16%nat.
Proof.
  unfold net.parseIPv4. destruct (net.parseIPv4_loop 4 0 s [0; 0; 0; 0]); [|discriminate].
  intros [= <-]. apply IPv4_length.
Qed.

Lemma parseIPv6_loop_length (left : nat) :
  forall (ip : net.IP) (i e : Z) (s : string) ip' i' e' s',
    net.parseIPv6_loop left ip i e s = Some (ip', i', e', s') ->
    length ip' = length ip.
Proof.
  induction left as [|left IH]; intros ip i e s ip' i' e' s' H; simpl in H.
  - by injection H as <- _ _ _.
  - destruct (net.IPv6len <=? i); [by injection H as <- _ _ _|].
    destruct (net.xtoi s) as [[n c] ok].
    destruct (negb ok || (65535 <? n)); [discriminate|].
    destruct ((c <? len s) && (at_ s c =? 46)).
    + split_ifs; try discriminate.
      injection H as <- _ _ _. by rewrite !set_length.
    + split_ifs; try discriminate;
        first [ injection H as <- _ _ _ | apply IH in H; rewrite H ];
        by rewrite !set_length.
Qed.

Lemma expand_move_length (count : nat) :
  forall (j n : Z) (ip : net.IP), length (net.expand_move count j n ip) = length ip.
Proof.
  induction count as [|k IH]; intros j n ip; simpl; [done|].
  by rewrite IH, set_length.
Qed.

Lemma expand_zero_length (count : nat) :
  forall (j : Z) (ip : net.IP), length (net.expand_zero count j ip) = length ip.
Proof.
  induction count as [|k IH]; intros j ip; simpl; [done|].
  by rewrite IH, set_length.
Qed.

Lemma parseIPv6_length (s : string) (ip : net.IP) :
  net.parseIPv6 s = Some ip -> length ip = 16%nat.
Proof.
  unfold net.parseIPv6. intros H.
  destruct ((2 <=? len s) && (at_ s 0 =? 58) && (at_ s 1 =? 58)) eqn:Hlead;
    lazy beta match zeta delta [andb] in H.
  - destruct (len (from 2 s) =? 0); [by injection H as <-|].
    destruct (net.parseIPv6_loop 8 (replicate 16 0) 0 0 (from 2 s))
      as [[[[ip1 i1] e1] s1]|] eqn:Hloop; [|discriminate].
    apply parseIPv6_loop_length in Hloop.
    split_ifs; try discriminate; injection H as <-;
      by rewrite ?expand_zero_length, ?expand_move_length, Hloop.
  - destruct (net.parseIPv6_loop 8 (replicate 16 0) 0 (-1) s)
      as [[[[ip1 i1] e1] s1]|] eqn:Hloop; [|discriminate].
    apply parseIPv6_loop_length in Hloop.
    split_ifs; try discriminate; injection H as <-;
      by rewrite ?expand_zero_length, ?expand_move_length, Hloop.
Qed.

Lemma ParseCIDR_length (s : string) (ip : net.IP) (n : net.IPNet) :
  net.ParseCIDR s = inl (ip, n) -> length ip = 16%nat.
Proof.
  unfold net.ParseCIDR. intros H.
  destruct (net.IndexByteString s 47 <? 0); [discriminate|].
  destruct (net.parseIPv4 (upto (net.IndexByteString s 47) s)) as [ip4|] eqn:H4.
  - destruct (net.dtoi (from (net.IndexByteString s 47 + 1) s)) as [[m c] ok].
    split_ifs; try discriminate. injection H as <- _.
    by apply parseIPv4_length in H4.
  - destruct (net.parseIPv6 (upto (net.IndexByteString s 47) s)) as [ip6|] eqn:H6;
      destruct (net.dtoi (from (net.IndexByteString s 47 + 1) s)) as [[m c] ok];
      [|discriminate].
    split_ifs; try discriminate. injection H as <- _.
    by apply parseIPv6_length in H6.
Qed.

(** The write [ip[15] = byte(10)] on a parsed address never panics. *)
Lemma index_set_parsed (s : string) (ip : net.IP) (n : net.IPNet) :
  net.ParseCIDR s = inl (ip, n) ->
  index_set ip 15 (net.byte 10) = Ok (<[15%nat := 10]> ip).
Proof.
  intros H. apply ParseCIDR_length in H.
  unfold index_set, net.llen. rewrite H. reflexivity.
Qed.

End ParsedLength.

(** ** The desired resource *)

Lemma networkProfile_no_panic (s : Spec) (p : panic) : networkProfile s <> Panic p.
Proof.
  unfold networkProfile.
  destruct (bool_decide (ServiceCIDR s <> ""%string)); [|discriminate].
  destruct (DNSServiceIP s); [discriminate|].
  destruct (net.ParseCIDR (ServiceCIDR s)) as [[ip n]|perr] eqn:Hparse; [|discriminate].
  by rewrite (index_set_parsed _ _ _ Hparse).
Qed.

(** Building the desired resource never panics: it yields the resource or
    the parse error. *)
Lemma managedCluster_no_panic (s : Spec) (p : panic) : managedCluster s <> Panic p.
Proof.
  unfold managedCluster.
  destruct (networkProfile s) eqn:Hnp; try discriminate.
  intros [= ->]. by apply networkProfile_no_panic in Hnp.
Qed.

(** The built resource has a properties block carrying the version of the
    spec, the Linux profile and the network profile. *)
Lemma managedCluster_Ok (s : Spec) (mc : containerservice.ManagedCluster) :
  managedCluster s = Ok mc ->
  exists props np,
    networkProfile s = Ok np
    /\ containerservice.ManagedClusterProperties_ mc = Some props
    /\ containerservice.KubernetesVersion props = Some (Version s)
    /\ containerservice.LinuxProfile_ props = Some (linuxProfile s)
    /\ containerservice.NetworkProfile_ props = Some np.
Proof.
  unfold managedCluster. destruct (networkProfile s) as [np| |]; try discriminate.
  intros [= <-]. eexists _, np. repeat split; reflexivity.
Qed.

Lemma built_NetworkProfile_Ok (s : Spec) (mc : containerservice.ManagedCluster) :
  managedCluster s = Ok mc ->
  networkProfile s = Ok (default (networkProfile_initial s) (built_NetworkProfile mc))
  /\ is_Some (built_NetworkProfile mc).
Proof.
  intros (props & np & Hnp & Hprops & _ & _ & Hnet)%managedCluster_Ok.
  unfold built_NetworkProfile. rewrite Hprops, Hnet. split; [done | by eexists].
Qed.

(** Two normalized property blocks differ exactly when their versions do. *)
Lemma diff_is_empty_normalized (v1 v2 : option string) :
  diff_is_empty (normalized v1) (normalized v2) = bool_decide (v1 = v2).
Proof.
  unfold diff_is_empty. apply bool_decide_ext. split; [|by intros ->].
  by intros [= ->].
Qed.

(** Overwriting the sixteenth byte of the 16-byte form of a.b.c.d gives the
    address a.b.c.10: the byte written is the last octet. *)
Lemma IPv4_last_octet (a b c d : Z) :
  net.IP_String (<[15%nat := 10]> (net.IPv4 a b c d)) = dotted a b c 10.
Proof. reflexivity. Qed.

(** Where the written address already is the network base in its first
    three octets, the specification's wording and the code agree. *)
Lemma spec_agrees_on_network_base (cidr : string) (ip : net.IP) (n : net.IPNet)
  (a b c d t : Z) :
  net.ParseCIDR cidr = inl (ip, n) ->
  ip = net.IPv4 a b c d ->
  net.IPNet_IP n = [a; b; c; t] ->
  spec_dnsServiceIP cidr = Some (net.IP_String (<[15%nat := 10]> ip)).
Proof.
  intros Hparse -> Hbase. unfold spec_dnsServiceIP. rewrite Hparse, Hbase.
  reflexivity.
Qed.

(** C1 (amended). For every spec whose serviceCIDR is non-empty and parses,
    and whose dnsServiceIP is absent, the desired resource is built and its
    dnsServiceIP is the text of the address written in serviceCIDR -- the
    first result of [net.ParseCIDR], host bits included, not the masked
    network base -- with its last byte, the final octet of an IPv4 address,
    overwritten by 10.  When that address is the IPv4 address a.b.c.d the
    result is a.b.c.10, and for serviceCIDR "10.0.0.0/16" it is
    "10.0.0.10". *)
Theorem C1_dns_from_written_address (s : Spec) (ip : net.IP) (n : net.IPNet) :
  ServiceCIDR s <> ""%string ->
  DNSServiceIP s = None ->
  net.ParseCIDR (ServiceCIDR s) = inl (ip, n) ->
  exists mc,
    managedCluster s = Ok mc
    /\ built_DNSServiceIP mc = Some (net.IP_String (<[15%nat := 10]> ip))
    /\ (forall a b c d, ip = net.IPv4 a b c d ->
        built_DNSServiceIP mc = Some (dotted a b c 10))
    /\ (ServiceCIDR s = "10.0.0.0/16"%string ->
        built_DNSServiceIP mc = Some "10.0.0.10"%string).
Proof.
  intros Hcidr Hdns Hparse.
  unfold managedCluster, networkProfile.
  rewrite (bool_decide_eq_true_2 _ Hcidr), Hdns, Hparse.
  rewrite (index_set_parsed _ _ _ Hparse).
  eexists. split; [reflexivity|]. split; [reflexivity|]. split.
  - intros a b c d ->. reflexivity.
  - intros Heq. rewrite Heq in Hparse. vm_compute in Hparse.
    injection Hparse as <- _. reflexivity.
Qed.

Lemma C1_dns_from_written_address_witness :
  ServiceCIDR spec_host_bits <> ""%string
  /\ DNSServiceIP spec_host_bits = None
  /\ exists mc,
       managedCluster spec_host_bits = Ok mc
       /\ built_DNSServiceIP mc = Some "10.0.5.10"%string.
Proof.
  split; [discriminate|]. split; [reflexivity|].
  destruct (C1_dns_from_written_address spec_host_bits
              (net.IPv4 10 0 5 7)
              {| net.IPNet_IP := [10; 0; 0; 0]; net.IPNet_Mask := [255; 255; 0; 0] |})
    as (mc & Hmc & Hdns & _); [discriminate | reflexivity | vm_compute; reflexivity |].
  exists mc. split; [exact Hmc | exact Hdns].
Defined.

(** C1 as stated fails: for serviceCIDR "10.0.5.7/16" the network base
    address is 10.0.0.0, so the claim asks for "10.0.0.10", while the code
    overwrites the last octet of the written address and yields
    "10.0.5.10". *)
Lemma C1_counterexample :
  ~ (forall (s : Spec) (mc : containerservice.ManagedCluster),
       ServiceCIDR s <> ""%string ->
       DNSServiceIP s = None ->
       managedCluster s = Ok mc ->
       built_DNSServiceIP mc = spec_dnsServiceIP (ServiceCIDR s)).
Proof.
  intros H.
  destruct (managedCluster spec_host_bits) as [mc| |] eqn:Hmc;
    [|vm_compute in Hmc; discriminate..].
  specialize (H spec_host_bits mc).
  assert (Hmc' := Hmc). vm_compute in Hmc'. injection Hmc' as <-.
  vm_compute in H. by specialize (H ltac:(discriminate) eq_refl eq_refl).
Qed.

(** C2 (the code at the failing input, and at every input like it). For
    every spec whose serviceCIDR is non-empty and whose dnsServiceIP is
    given, the desired resource carries the given dnsServiceIP verbatim,
    but its serviceCidr field is left unset: only the branch for an absent
    dnsServiceIP assigns it. *)
Theorem C2_explicit_dns_leaves_service_cidr_unset (s : Spec) (dns : string) :
  ServiceCIDR s <> ""%string ->
  DNSServiceIP s = Some dns ->
  exists mc,
    managedCluster s = Ok mc
    /\ built_DNSServiceIP mc = Some dns
    /\ built_ServiceCidr mc = None.
Proof.
  intros Hcidr Hdns.
  unfold managedCluster, networkProfile.
  rewrite (bool_decide_eq_true_2 _ Hcidr), Hdns.
  eexists. repeat split; reflexivity.
Qed.

Lemma C2_explicit_dns_leaves_service_cidr_unset_witness :
  ServiceCIDR spec_explicit_dns = "10.0.0.0/16"%string
  /\ DNSServiceIP spec_explicit_dns = Some "10.0.0.10"%string
  /\ exists mc,
       managedCluster spec_explicit_dns = Ok mc
       /\ built_DNSServiceIP mc = Some "10.0.0.10"%string
       /\ built_ServiceCidr mc = None.
Proof.
  split; [reflexivity|]. split; [reflexivity|].
  apply (C2_explicit_dns_leaves_service_cidr_unset spec_explicit_dns "10.0.0.10");
    [discriminate | reflexivity].
Defined.

(** C9 (amended). For every spec, the Linux admin profile of the built
    resource names the fixed administrator "azureuser", and its SSH public
    key list has exactly one entry, whose key data is the sshPublicKey of
    the spec -- also when that key is the empty string. *)
Theorem C9_linux_profile (s : Spec) (mc : containerservice.ManagedCluster) :
  managedCluster s = Ok mc ->
  exists lp,
    built_LinuxProfile mc = Some lp
    /\ containerservice.AdminUsername lp = Some defaultUser
    /\ defaultUser = "azureuser"%string
    /\ built_PublicKeys mc
       = Some [ {| containerservice.KeyData := Some (SSHPublicKey s) |} ].
Proof.
  intros (props & np & _ & Hprops & _ & Hlp & _)%managedCluster_Ok.
  exists (linuxProfile s).
  unfold built_PublicKeys, built_LinuxProfile. rewrite Hprops, Hlp.
  repeat split; reflexivity.
Qed.

Lemma C9_linux_profile_witness :
  managedCluster spec_no_key = Ok (built spec_no_key)
  /\ exists lp,
       built_LinuxProfile (built spec_no_key) = Some lp
       /\ containerservice.AdminUsername lp = Some "azureuser"%string
       /\ built_PublicKeys (built spec_no_key)
          = Some [ {| containerservice.KeyData := Some ""%string |} ].
Proof.
  split; [reflexivity|].
  destruct (C9_linux_profile spec_no_key (built spec_no_key) eq_refl)
    as (lp & Hlp & Huser & _ & Hkeys).
  exists lp. split; [exact Hlp|]. split; [exact Huser | exact Hkeys].
Defined.

(** C9 as stated fails: with an empty sshPublicKey the claim asks for a key
    list without entries, while the built list still has one entry (with
    empty key data). *)
Lemma C9_counterexample :
  ~ (forall (s : Spec) (mc : containerservice.ManagedCluster),
       managedCluster s = Ok mc ->
       built_PublicKeys mc = Some (spec_PublicKeys s)).
Proof.
  intros H.
  destruct (managedCluster spec_no_key) as [mc| |] eqn:Hmc;
    [|vm_compute in Hmc; discriminate..].
  specialize (H spec_no_key mc Hmc).
  vm_compute in Hmc. injection Hmc as <-. vm_compute in H. discriminate.
Qed.

(** ** Reconcile and Delete against an arbitrary client *)
Section Claims.

Context {P : Type}.
Variable c : Client P.

Local Ltac run :=
  unfold Reconcile, Delete, bind, as_Spec, lift, deref, return_, ret,
    Client_Get, Client_CreateOrUpdate, Client_Delete, logged; simpl.

(** C3 (amended). For every spec whose serviceCIDR is non-empty, whose
    dnsServiceIP is absent and whose serviceCIDR does not parse as a CIDR,
    Reconcile returns the parse error, wrapped as "failed to parse service
    cidr: ...", and leaves the world as it found it: no Get, no
    CreateOrUpdate, no call at all. *)
Theorem C3_parse_error_before_any_call (s : Spec) (w : World P)
  (perr : net.ParseError) :
  ServiceCIDR s <> ""%string ->
  DNSServiceIP s = None ->
  net.ParseCIDR (ServiceCIDR s) = inr perr ->
  Reconcile c (SpecPtr (Some s)) w
  = (Err (Errorf_w "failed to parse service cidr: " (parseError perr)), w).
Proof.
  intros Hcidr Hdns Hparse. run.
  unfold managedCluster, networkProfile.
  by rewrite (bool_decide_eq_true_2 _ Hcidr), Hdns, Hparse.
Qed.

(** C4. When the desired resource is built, Get succeeds and the existing
    resource reports a provisioning state other than Succeeded, Failed and
    Canceled, Reconcile returns an error whose message ends in the observed
    state, the provider's state is unchanged and the only call issued is the
    Get: no CreateOrUpdate. *)
Theorem C4_blocked_in_non_terminal_state (s : Spec) (w : World P)
  (desired existing : containerservice.ManagedCluster)
  (props : containerservice.ManagedClusterProperties) (ps : string) :
  managedCluster s = Ok desired ->
  client_Get c (ResourceGroupName s) (Name s) (provider w) = (existing, None) ->
  containerservice.ManagedClusterProperties_ existing = Some props ->
  containerservice.ProvisioningState props = Some ps ->
  is_terminal ps = false ->
  Reconcile c (SpecPtr (Some s)) w
  = (Err (errorString (String.append non_terminal_prefix ps)),
     logged w [CallGet (ResourceGroupName s) (Name s)])
  /\ mutating_calls [CallGet (ResourceGroupName s) (Name s)] = [].
Proof.
  intros Hbuild Hget Hprops Hps Hterm. split; [|reflexivity].
  run. rewrite Hbuild, Hget. simpl. rewrite Hprops, Hps.
  unfold is_terminal in Hterm.
  apply orb_false_elim in Hterm as [[H1 H2]%orb_false_elim H3].
  apply bool_decide_eq_false in H1, H2, H3.
  by rewrite !bool_decide_eq_true_2.
Qed.

(** C5. When the desired resource is built and Get fails: if the error is
    "not found", Reconcile issues, after the Get, exactly one CreateOrUpdate
    carrying the built resource, and returns success if that call succeeds
    (its error, wrapped as "failed to create managed cluster, ...",
    otherwise); if the error is any other, Reconcile returns it wrapped with
    "failed to get existing managed cluster" and issues no CreateOrUpdate. *)
Theorem C5_create_when_not_found (s : Spec) (w : World P)
  (desired existing : containerservice.ManagedCluster) (e : error) :
  managedCluster s = Ok desired ->
  client_Get c (ResourceGroupName s) (Name s) (provider w) = (existing, Some e) ->
  (notFound e = true ->
   forall (err : option error) (p' : P),
     client_CreateOrUpdate c (ResourceGroupName s) (Name s) desired (provider w)
     = (err, p') ->
     Reconcile c (SpecPtr (Some s)) w
     = (match err with
        | None => Ok tt
        | Some e' => Err (Errorf_w "failed to create managed cluster, " e')
        end,
        Build_World p'
          (calls w ++ [CallGet (ResourceGroupName s) (Name s)]
                   ++ [CallCreateOrUpdate (ResourceGroupName s) (Name s) desired])))
  /\ (notFound e = false ->
      Reconcile c (SpecPtr (Some s)) w
      = (Err (withMessage e "failed to get existing managed cluster"),
         logged w [CallGet (ResourceGroupName s) (Name s)])).
Proof.
  intros Hbuild Hget. split.
  - intros Hnf err p' Hcreate. run. rewrite Hbuild, Hget. simpl.
    rewrite Hnf. simpl. rewrite Hcreate. rewrite <- app_assoc.
    by destruct err.
  - intros Hnf. run. rewrite Hbuild, Hget. simpl. by rewrite Hnf.
Qed.

(** The calls that one Reconcile adds to the log: none, the Get alone, or
    the Get followed by one CreateOrUpdate for the spec's resource. *)
Lemma Reconcile_calls (spec : Iface) (w : World P) :
  exists new,
    calls (snd (Reconcile c spec w)) = calls w ++ new
    /\ (new = []
        \/ (exists g n, new = [CallGet g n])
        \/ (exists g n mc, new = [CallGet g n; CallCreateOrUpdate g n mc])).
Proof.
  destruct spec as [[s|]|]; run;
    [|exists []; rewrite app_nil_r; auto..].
  destruct (managedCluster s) as [desired| |]; simpl;
    [|exists []; rewrite app_nil_r; auto..].
  destruct (client_Get c (ResourceGroupName s) (Name s) (provider w))
    as [existing [e|]]; simpl.
  - destruct (notFound e); simpl; [|eexists; split; [reflexivity|eauto]].
    destruct (client_CreateOrUpdate c _ _ _ _) as [[e'|] p']; simpl;
      rewrite <- app_assoc; eexists; split; try reflexivity; eauto 6.
  - destruct (containerservice.ManagedClusterProperties_ existing) as [props|];
      simpl; [|eexists; split; [reflexivity|eauto]].
    destruct (containerservice.ProvisioningState props) as [ps|];
      simpl; [|eexists; split; [reflexivity|eauto]].
    destruct (_ && _); simpl; [eexists; split; [reflexivity|eauto]|].
    destruct (containerservice.ManagedClusterProperties_ desired) as [dprops|];
      simpl; [|eexists; split; [reflexivity|eauto]].
    destruct (negb _); simpl; [|eexists; split; [reflexivity|eauto]].
    destruct (client_CreateOrUpdate c _ _ _ _) as [[e'|] p']; simpl;
      rewrite <- app_assoc; eexists; split; try reflexivity; eauto 6.
Qed.

(** C7. For every input, every provider state and every client, one
    Reconcile adds at most one mutating call to the log, and that call is a
    CreateOrUpdate; this covers the paths that end in an error or a panic. *)
Theorem C7_at_most_one_mutating_call (spec : Iface) (w : World P) :
  exists new,
    calls (snd (Reconcile c spec w)) = calls w ++ new
    /\ (length (mutating_calls new) <= 1)%nat
    /\ mutating_calls new = List.filter is_CreateOrUpdate new.
Proof.
  destruct (Reconcile_calls spec w) as (new & Hcalls & Hshape).
  exists new. split; [exact Hcalls|].
  destruct Hshape as [->|[(g & n & ->)|(g & n & mc & ->)]]; simpl; split; (lia || reflexivity).
Qed.

(** C8. For a spec of the right type, Delete issues the provider's Delete;
    it returns success when that call succeeds and when it reports "not
    found", and returns any other error wrapped with "failed to delete
    managed cluster <name> in resource group <group>". *)
Theorem C8_delete_outcomes (s : Spec) (w : World P) (err : option error) (p' : P) :
  client_Delete c (ResourceGroupName s) (Name s) (provider w) = (err, p') ->
  let w' := Build_World p' (calls w ++ [CallDelete (ResourceGroupName s) (Name s)]) in
  (err = None -> Delete c (SpecPtr (Some s)) w = (Ok tt, w'))
  /\ (forall e, err = Some e -> notFound e = true ->
      Delete c (SpecPtr (Some s)) w = (Ok tt, w'))
  /\ (forall e, err = Some e -> notFound e = false ->
      Delete c (SpecPtr (Some s)) w
      = (Err (withMessage e
                (String.append "failed to delete managed cluster "
                   (String.append (Name s)
                      (String.append " in resource group " (ResourceGroupName s))))),
         w')).
Proof.
  intros Hdel w'. repeat split.
  - intros ->. run. by rewrite Hdel.
  - intros e -> Hnf. run. rewrite Hdel. simpl. by rewrite Hnf.
  - intros e -> Hnf. run. rewrite Hdel. simpl. by rewrite Hnf.
Qed.

(** C10. When the desired resource is built and Get succeeds, Reconcile
    reads the provisioning state of the fetched resource without a guard:
    if the resource has no properties block, or the block has no
    provisioning state, Reconcile panics with a nil dereference right after
    the Get; if both are present it does not panic.  So Reconcile ends in a
    returned value exactly under the precondition that both are present. *)
Theorem C10_unguarded_provisioning_state (s : Spec) (w : World P)
  (desired existing : containerservice.ManagedCluster) :
  managedCluster s = Ok desired ->
  client_Get c (ResourceGroupName s) (Name s) (provider w) = (existing, None) ->
  ((containerservice.ManagedClusterProperties_ existing = None
    \/ exists props, containerservice.ManagedClusterProperties_ existing = Some props
                     /\ containerservice.ProvisioningState props = None) ->
   Reconcile c (SpecPtr (Some s)) w
   = (Panic NilDereference, logged w [CallGet (ResourceGroupName s) (Name s)]))
  /\ ((exists props ps, containerservice.ManagedClusterProperties_ existing = Some props
                        /\ containerservice.ProvisioningState props = Some ps) ->
      exists err, fst (Reconcile c (SpecPtr (Some s)) w) = (match err with
                                                            | Some e => Err e
                                                            | None => Ok tt
                                                            end)).
Proof.
  intros Hbuild Hget. split.
  - intros [Hnone|(props & Hprops & Hps)]; run; rewrite Hbuild, Hget; simpl.
    + by rewrite Hnone.
    + by rewrite Hprops, Hps.
  - intros (props & ps & Hprops & Hps). run. rewrite Hbuild, Hget. simpl.
    rewrite Hprops, Hps.
    destruct (managedCluster_Ok _ _ Hbuild) as (dprops & np & _ & Hdprops & _).
    destruct (_ && _); simpl; [by eexists (Some _)|].
    rewrite Hdprops. simpl.
    destruct (negb _); simpl; [|by exists None].
    destruct (client_CreateOrUpdate c _ _ _ _) as [[e'|] p']; simpl;
      [by eexists (Some _) | by exists None].
Qed.

End Claims.

(** ** The claims at concrete inputs *)

Lemma C3_parse_error_before_any_call_witness :
  ServiceCIDR spec_bad_cidr <> ""%string
  /\ DNSServiceIP spec_bad_cidr = None
  /\ Reconcile absent_client (SpecPtr (Some spec_bad_cidr)) start
     = (Err (wrapError "failed to parse service cidr: invalid CIDR address: not-a-cidr"
               (parseError {| net.ParseError_Type := "CIDR address";
                              net.ParseError_Text := "not-a-cidr" |})),
        start).
Proof.
  split; [discriminate|]. split; [reflexivity|].
  apply (C3_parse_error_before_any_call absent_client spec_bad_cidr start
           {| net.ParseError_Type := "CIDR address"; net.ParseError_Text := "not-a-cidr" |});
    [discriminate | reflexivity | vm_compute; reflexivity].
Defined.

(** C3 as stated fails: the serviceCIDR is parsed only when dnsServiceIP is
    absent.  With serviceCIDR "not-a-cidr" and an explicit dnsServiceIP,
    Reconcile goes on to the provider: against an absent resource it issues
    Get and CreateOrUpdate and returns success. *)
Lemma C3_counterexample :
  ~ (forall (P : Type) (c : Client P) (s : Spec) (w : World P),
       ServiceCIDR s <> ""%string ->
       (exists perr, net.ParseCIDR (ServiceCIDR s) = inr perr) ->
       exists e, Reconcile c (SpecPtr (Some s)) w = (Err e, w)).
Proof.
  intros H.
  destruct (H unit absent_client spec_bad_cidr_explicit_dns start) as [e He].
  - discriminate.
  - eexists. vm_compute. reflexivity.
  - vm_compute in He. discriminate.
Qed.

Lemma C4_blocked_in_non_terminal_state_witness :
  is_terminal "Creating" = false
  /\ Reconcile creating_client (SpecPtr (Some spec_16)) start
     = (Err (errorString (String.append non_terminal_prefix "Creating")),
        logged start [CallGet "my-rg" "my-cluster"]).
Proof.
  split; [reflexivity|].
  refine (proj1 (C4_blocked_in_non_terminal_state creating_client spec_16 start
                   (built spec_16)
                   (existing_cluster (Some "Creating"%string) (Some "1.21.2"%string))
                   _ "Creating" _ _ _ _ _)); reflexivity.
Defined.

Lemma C5_create_when_not_found_witness :
  Reconcile absent_client (SpecPtr (Some spec_16)) start
  = (Ok tt,
     Build_World tt [CallGet "my-rg" "my-cluster";
                     CallCreateOrUpdate "my-rg" "my-cluster" (built spec_16)])
  /\ Reconcile failing_get_client (SpecPtr (Some spec_16)) start
     = (Err (withMessage throttled "failed to get existing managed cluster"),
        logged start [CallGet "my-rg" "my-cluster"]).
Proof.
  split.
  - refine (proj1 (C5_create_when_not_found absent_client spec_16 start
                     (built spec_16) bare_cluster not_found _ _) _ None tt _);
      reflexivity.
  - refine (proj2 (C5_create_when_not_found failing_get_client spec_16 start
                     (built spec_16) bare_cluster throttled _ _) _);
      reflexivity.
Defined.

Lemma C8_delete_outcomes_witness :
  Delete delete_gone_client (SpecPtr (Some spec_16)) start
  = (Ok tt, Build_World tt [CallDelete "my-rg" "my-cluster"])
  /\ Delete delete_failing_client (SpecPtr (Some spec_16)) start
     = (Err (withMessage throttled
               "failed to delete managed cluster my-cluster in resource group my-rg"),
        Build_World tt [CallDelete "my-rg" "my-cluster"])
  /\ Delete absent_client (SpecPtr (Some spec_16)) start
     = (Ok tt, Build_World tt [CallDelete "my-rg" "my-cluster"]).
Proof.
  split; [|split].
  - refine (proj1 (proj2 (C8_delete_outcomes delete_gone_client spec_16 start
                            (Some not_found) tt _)) not_found _ _); reflexivity.
  - refine (proj2 (proj2 (C8_delete_outcomes delete_failing_client spec_16 start
                            (Some throttled) tt _)) throttled _ _); reflexivity.
  - refine (proj1 (C8_delete_outcomes absent_client spec_16 start None tt _) _);
      reflexivity.
Defined.

Lemma C10_unguarded_provisioning_state_witness :
  Reconcile stateless_client (SpecPtr (Some spec_16)) start
  = (Panic NilDereference, logged start [CallGet "my-rg" "my-cluster"])
  /\ Reconcile bare_client (SpecPtr (Some spec_16)) start
     = (Panic NilDereference, logged start [CallGet "my-rg" "my-cluster"])
  /\ exists err, fst (Reconcile up_to_date_client (SpecPtr (Some spec_16)) start)
                 = match err with Some e => Err e | None => Ok tt end.
Proof.
  split; [|split].
  - refine (proj1 (C10_unguarded_provisioning_state stateless_client spec_16 start
                     (built spec_16)
                     (existing_cluster None (Some "1.21.2"%string)) _ _) _);
      [reflexivity | reflexivity |].
    right. eexists. split; reflexivity.
  - refine (proj1 (C10_unguarded_provisioning_state bare_client spec_16 start
                     (built spec_16) bare_cluster _ _) _);
      [reflexivity | reflexivity | left; reflexivity].
  - refine (proj2 (C10_unguarded_provisioning_state up_to_date_client spec_16 start
                     (built spec_16)
                     (existing_cluster (Some "Succeeded"%string) (Some "1.21.2"%string))
                     _ _) _);
      [reflexivity | reflexivity |].
    eexists _, _. split; reflexivity.
Defined.

(** ** Two invocations in succession against a provider with state *)

(** Against a provider that completes a request before it answers, a first
    Reconcile creates the absent resource and a second one, run right after
    it, finds it settled at the desired version and only issues its Get. *)
Example twice_against_completing_provider :
  Reconcile_twice (store "Succeeded") (SpecPtr (Some spec_16)) (Build_World None [])
  = (Ok tt,
     Build_World (Some (stored "Succeeded" (built spec_16)))
       [CallGet "my-rg" "my-cluster";
        CallCreateOrUpdate "my-rg" "my-cluster" (built spec_16);
        CallGet "my-rg" "my-cluster"]).
Proof. vm_compute. reflexivity. Qed.

(** Against a provider that only accepts the request, the resource is still
    being created when the second Reconcile runs, which is then blocked: it
    issues its Get and returns the error for a non-terminal state. *)
Example twice_against_accepting_provider :
  Reconcile_twice (store "Creating") (SpecPtr (Some spec_16)) (Build_World None [])
  = (Err (errorString (String.append non_terminal_prefix "Creating")),
     Build_World (Some (stored "Creating" (built spec_16)))
       [CallGet "my-rg" "my-cluster";
        CallCreateOrUpdate "my-rg" "my-cluster" (built spec_16);
        CallGet "my-rg" "my-cluster"]).
Proof. vm_compute. reflexivity. Qed.

(** * Further properties of the code *)

(** ** The desired resource, field by field *)

(** Every error of [net.ParseCIDR] is a "CIDR address" error that quotes the
    whole input. *)
Lemma ParseCIDR_error (s : string) (perr : net.ParseError) :
  net.ParseCIDR s = inr perr ->
  perr = {| net.ParseError_Type := "CIDR address"; net.ParseError_Text := s |}.
Proof.
  unfold net.ParseCIDR. intros H.
  repeat match type of H with
    | context [if ?b then _ else _] => destruct b
    | context [match ?x with _ => _ end] => destruct x
    end; congruence.
Qed.

(** X1. Building the desired resource has exactly one way to fail.  It
    returns an error if and only if serviceCIDR is non-empty, dnsServiceIP is
    absent and serviceCIDR does not parse; the error then reads "failed to
    parse service cidr: invalid CIDR address: <serviceCIDR>" and wraps the
    parse error.  In every other case a resource is built; a panic never
    occurs, the write to the sixteenth byte of the parsed address being
    always in range. *)
Theorem managedCluster_outcome (s : Spec) :
  (exists mc,
     managedCluster s = Ok mc
     /\ (ServiceCIDR s = ""%string
         \/ (exists dns, DNSServiceIP s = Some dns)
         \/ (exists ip n, net.ParseCIDR (ServiceCIDR s) = inl (ip, n))))
  \/ (ServiceCIDR s <> ""%string
      /\ DNSServiceIP s = None
      /\ net.ParseCIDR (ServiceCIDR s)
         = inr {| net.ParseError_Type := "CIDR address";
                  net.ParseError_Text := ServiceCIDR s |}
      /\ exists e,
           managedCluster s = Err e
           /\ Error e = String.append "failed to parse service cidr: invalid CIDR address: "
                          (ServiceCIDR s)
           /\ e = wrapError (Error e)
                    (parseError {| net.ParseError_Type := "CIDR address";
                                   net.ParseError_Text := ServiceCIDR s |})).
Proof.
  unfold managedCluster, networkProfile.
  destruct (decide (ServiceCIDR s = ""%string)) as [Hempty|Hcidr].
  - left. rewrite bool_decide_eq_false_2 by (intros H; by apply H).
    eexists. split; [reflexivity | by left].
  - rewrite (bool_decide_eq_true_2 _ Hcidr).
    destruct (DNSServiceIP s) as [dns|] eqn:Hdns.
    + left. eexists. split; [reflexivity | right; left; by eexists].
    + destruct (net.ParseCIDR (ServiceCIDR s)) as [[ip n]|perr] eqn:Hparse.
      * left. rewrite (index_set_parsed _ _ _ Hparse).
        eexists. split; [reflexivity | right; right; by eexists _, _].
      * right. rewrite (ParseCIDR_error _ _ Hparse).
        repeat split; try done. eexists. repeat split; reflexivity.
Qed.

(** X2. An empty serviceCIDR means that nothing about the service network is
    requested: the built resource has neither serviceCidr nor dnsServiceIP,
    and a dnsServiceIP given in the spec is dropped without an error. *)
Theorem empty_service_cidr_drops_dns (s : Spec) :
  ServiceCIDR s = ""%string ->
  exists mc,
    managedCluster s = Ok mc
    /\ built_ServiceCidr mc = None
    /\ built_DNSServiceIP mc = None.
Proof.
  intros Hempty. unfold managedCluster, networkProfile.
  rewrite bool_decide_eq_false_2 by (intros H; by apply H).
  eexists. repeat split; reflexivity.
Qed.

Lemma empty_service_cidr_drops_dns_witness :
  ServiceCIDR spec_dns_without_cidr = ""%string
  /\ DNSServiceIP spec_dns_without_cidr = Some "10.0.0.10"%string
  /\ exists mc,
       managedCluster spec_dns_without_cidr = Ok mc
       /\ built_ServiceCidr mc = None
       /\ built_DNSServiceIP mc = None.
Proof.
  split; [reflexivity|]. split; [reflexivity|].
  apply (empty_service_cidr_drops_dns spec_dns_without_cidr). reflexivity.
Defined.

(** X3. Whichever way the service CIDR is resolved, the network profile of
    the built resource carries the plugin, the policy and the load balancer
    SKU of the spec unchanged (an empty string stays empty: no default is
    filled in), and its podCidr is the podCIDR of the spec when that is
    non-empty and unset otherwise. *)
Theorem network_profile_passthrough (s : Spec) (mc : containerservice.ManagedCluster) :
  managedCluster s = Ok mc ->
  exists np,
    built_NetworkProfile mc = Some np
    /\ containerservice.NetworkPlugin np = NetworkPlugin s
    /\ containerservice.NetworkPolicy np = NetworkPolicy s
    /\ containerservice.LoadBalancerSku np = LoadBalancerSKU s
    /\ (PodCIDR s = ""%string -> containerservice.PodCidr np = None)
    /\ (PodCIDR s <> ""%string -> containerservice.PodCidr np = Some (PodCIDR s)).
Proof.
  intros (props & np & Hnp & Hprops & _ & _ & Hnet)%managedCluster_Ok.
  exists np. unfold built_NetworkProfile. rewrite Hprops, Hnet.
  split; [reflexivity|].
  assert (Hpod : (PodCIDR s = ""%string ->
                  containerservice.PodCidr (networkProfile_initial s) = None)
                 /\ (PodCIDR s <> ""%string ->
                     containerservice.PodCidr (networkProfile_initial s) = Some (PodCIDR s))).
  { unfold networkProfile_initial; simpl. split; intros H.
    - rewrite bool_decide_eq_false_2; [done | by intros H'].
    - by rewrite bool_decide_eq_true_2. }
  unfold networkProfile in Hnp.
  destruct (bool_decide (ServiceCIDR s <> ""%string));
    [|injection Hnp as <-; repeat split; apply Hpod].
  destruct (DNSServiceIP s); [injection Hnp as <-; repeat split; apply Hpod|].
  destruct (net.ParseCIDR (ServiceCIDR s)) as [[ip n]|]; [|discriminate].
  destruct (index_set ip 15 (net.byte 10)); try discriminate.
  injection Hnp as <-. repeat split; apply Hpod.
Qed.

Lemma network_profile_passthrough_witness :
  managedCluster spec_with_pods = Ok (built spec_with_pods)
  /\ exists np,
       built_NetworkProfile (built spec_with_pods) = Some np
       /\ containerservice.NetworkPlugin np = "kubenet"%string
       /\ containerservice.NetworkPolicy np = "calico"%string
       /\ containerservice.LoadBalancerSku np = "Standard"%string
       /\ containerservice.PodCidr np = Some "192.168.0.0/16"%string.
Proof.
  split; [reflexivity|].
  destruct (network_profile_passthrough spec_with_pods (built spec_with_pods) eq_refl)
    as (np & Hnp & Hplugin & Hpolicy & Hsku & _ & Hpod).
  exists np. split; [exact Hnp|]. split; [exact Hplugin|]. split; [exact Hpolicy|].
  split; [exact Hsku|]. apply Hpod. discriminate.
Defined.

(** The loop over the pools appends one profile after the other: it is the
    map of [agentPoolProfile] over the pools. *)
Lemma agentPoolProfiles_map (s : Spec) :
  agentPoolProfiles s = map (agentPoolProfile s) (AgentPools s).
Proof.
  unfold agentPoolProfiles.
  assert (H : forall pools acc,
             fold_left (fun profiles pool => profiles ++ [agentPoolProfile s pool]) pools acc
             = acc ++ map (agentPoolProfile s) pools).
  { induction pools as [|pool pools IH]; intros acc; simpl.
    - by rewrite app_nil_r.
    - rewrite IH. by rewrite <- app_assoc. }
  apply (H (AgentPools s) []).
Qed.

(** X4. The built resource has one agent pool profile per pool of the spec,
    in the order of the spec: the profile at each index carries the name,
    VM size, node count and disk size of the pool at that index, the subnet
    of the spec (the same for every pool), the type
    "VirtualMachineScaleSets" and the mode "System".  A spec without pools
    gives an empty, non-nil list. *)
Theorem agent_pools_in_order (s : Spec) (mc : containerservice.ManagedCluster) :
  managedCluster s = Ok mc ->
  exists props profiles,
    containerservice.ManagedClusterProperties_ mc = Some props
    /\ containerservice.AgentPoolProfiles props = Some profiles
    /\ length profiles = length (AgentPools s)
    /\ forall (i : nat) (pool : PoolSpec),
         AgentPools s !! i = Some pool ->
         profiles !! i
         = Some {| containerservice.Pool_Name := Some (PoolSpec_Name pool);
                   containerservice.VMSize := Some (SKU pool);
                   containerservice.OsDiskSizeGB := Some (OSDiskSizeGB pool);
                   containerservice.Count := Some (Replicas pool);
                   containerservice.Pool_Type := "VirtualMachineScaleSets";
                   containerservice.Pool_VnetSubnetID := Some (VnetSubnetID s);
                   containerservice.Mode := "System" |}.
Proof.
  unfold managedCluster. destruct (networkProfile s) as [np| |]; try discriminate.
  intros [= <-]. eexists _, (agentPoolProfiles s).
  split; [reflexivity|]. split; [reflexivity|].
  rewrite agentPoolProfiles_map. split; [by rewrite length_map|].
  intros i pool Hpool. rewrite list_lookup_fmap, Hpool. reflexivity.
Qed.

Lemma agent_pools_in_order_witness :
  managedCluster spec_with_pods = Ok (built spec_with_pods)
  /\ exists props profiles,
       containerservice.ManagedClusterProperties_ (built spec_with_pods) = Some props
       /\ containerservice.AgentPoolProfiles props = Some profiles
       /\ length profiles = 2%nat
       /\ containerservice.Pool_Name <$> profiles
          = [Some "pool0"%string; Some "pool1"%string].
Proof.
  split; [reflexivity|].
  destruct (agent_pools_in_order spec_with_pods (built spec_with_pods) eq_refl)
    as (props & profiles & Hprops & Hprofiles & Hlen & Hat).
  exists props, profiles. split; [exact Hprops|]. split; [exact Hprofiles|].
  split; [exact Hlen|].
  assert (H0 := Hat 0%nat _ eq_refl). assert (H1 := Hat 1%nat _ eq_refl).
  destruct profiles as [|p0 [|p1 [|p2 rest]]]; try discriminate Hlen.
  injection H0 as ->. injection H1 as ->. reflexivity.
Defined.

(** X5. The parts of the built resource that do not depend on the network:
    the identity is always system-assigned and the service principal client
    ID is always "msi"; location, DNS prefix (the cluster name), node
    resource group and Kubernetes version are those of the spec; the
    resource carries exactly the tags of the spec, each with its value; and
    no provisioning state is sent. *)
Theorem fixed_and_copied_fields (s : Spec) (mc : containerservice.ManagedCluster) :
  managedCluster s = Ok mc ->
  containerservice.Identity mc
  = Some {| containerservice.Identity_Type := "SystemAssigned" |}
  /\ containerservice.Location mc = Some (Location s)
  /\ (forall k : string, containerservice.Tags mc !! k = Some <$> (Tags s !! k))
  /\ dom (containerservice.Tags mc) = dom (Tags s)
  /\ exists props,
       containerservice.ManagedClusterProperties_ mc = Some props
       /\ containerservice.ProvisioningState props = None
       /\ containerservice.KubernetesVersion props = Some (Version s)
       /\ containerservice.DNSPrefix props = Some (Name s)
       /\ containerservice.NodeResourceGroup props = Some (NodeResourceGroupName s)
       /\ containerservice.ServicePrincipalProfile props
          = Some {| containerservice.ClientID := Some "msi"%string |}.
Proof.
  unfold managedCluster. destruct (networkProfile s) as [np| |]; try discriminate.
  intros [= <-]. simpl. split; [reflexivity|]. split; [reflexivity|].
  split; [intros k; unfold StringMapPtr; apply lookup_fmap|].
  split; [unfold StringMapPtr; apply dom_fmap_L|].
  eexists. repeat split; reflexivity.
Qed.

Lemma fixed_and_copied_fields_witness :
  managedCluster spec_with_pods = Ok (built spec_with_pods)
  /\ containerservice.Location (built spec_with_pods) = Some "westus2"%string
  /\ containerservice.Tags (built spec_with_pods) !! "env"%string
     = Some (Some "test"%string)
  /\ containerservice.Tags (built spec_with_pods) !! "owner"%string = None.
Proof.
  split; [reflexivity|].
  destruct (fixed_and_copied_fields spec_with_pods (built spec_with_pods) eq_refl)
    as (_ & Hloc & Htags & _).
  split; [exact Hloc|]. split; [exact (Htags "env"%string) | exact (Htags "owner"%string)].
Defined.

(** ** The derived DNS address and the service network *)

Lemma CIDRMask_loop_length (l : nat) :
  forall n : Z, length (net.CIDRMask_loop l n) = l.
Proof.
  induction l as [|l IH]; intros n; simpl; [done|].
  destruct (8 <=? n); simpl; by rewrite IH.
Qed.

Lemma CIDRMask_length (ones bits : Z) :
  (ones <? 0) = false -> (bits <? ones) = false ->
  bits = 32 \/ bits = 128 ->
  length (net.CIDRMask ones bits) = Z.to_nat (bits / 8).
Proof.
  intros Hneg Hbig Hbits. unfold net.CIDRMask. rewrite Hneg, Hbig.
  replace (negb (bits =? 8 * net.IPv4len) && negb (bits =? 8 * net.IPv6len))
    with false by (by destruct Hbits as [->| ->]).
  apply CIDRMask_loop_length.
Qed.

Lemma parseIPv4_shape (s : string) (ip : net.IP) :
  net.parseIPv4 s = Some ip -> exists a b c d, ip = net.IPv4 a b c d.
Proof.
  unfold net.parseIPv4. destruct (net.parseIPv4_loop 4 0 s [0; 0; 0; 0]); [|discriminate].
  intros [= <-]. by eexists _, _, _, _.
Qed.

(** What a successful [net.ParseCIDR] returns: the network is the written
    address under the mask, and either the address is an IPv4 address in
    16-byte form with a 4-byte mask, or address and mask both have 16
    bytes. *)
Lemma ParseCIDR_inv (s : string) (ip : net.IP) (n : net.IPNet) :
  net.ParseCIDR s = inl (ip, n) ->
  net.IPNet_IP n = net.Mask ip (net.IPNet_Mask n)
  /\ ((exists a b c d, ip = net.IPv4 a b c d /\ length (net.IPNet_Mask n) = 4%nat)
      \/ (length ip = 16%nat /\ length (net.IPNet_Mask n) = 16%nat)).
Proof.
  unfold net.ParseCIDR. intros H.
  destruct (net.IndexByteString s 47 <? 0); [discriminate|].
  destruct (net.parseIPv4 (upto (net.IndexByteString s 47) s)) as [ip4|] eqn:H4.
  - destruct (net.dtoi (from (net.IndexByteString s 47 + 1) s)) as [[k c] ok].
    destruct (negb ok || negb (c =? len (from (net.IndexByteString s 47 + 1) s))
              || (k <? 0) || (8 * net.IPv4len <? k)) eqn:Hcheck; [discriminate|].
    injection H as <- <-. simpl. split; [reflexivity|]. left.
    apply parseIPv4_shape in H4 as (a & b & c' & d & ->).
    exists a, b, c', d. split; [reflexivity|].
    apply orb_false_elim in Hcheck as [[_ Hneg]%orb_false_elim Hbig].
    change (8 * net.IPv4len) with 32 in *.
    by rewrite CIDRMask_length by auto.
  - destruct (net.parseIPv6 (upto (net.IndexByteString s 47) s)) as [ip6|] eqn:H6;
      destruct (net.dtoi (from (net.IndexByteString s 47 + 1) s)) as [[k c] ok];
      [|discriminate].
    destruct (negb ok || negb (c =? len (from (net.IndexByteString s 47 + 1) s))
              || (k <? 0) || (8 * net.IPv6len <? k)) eqn:Hcheck; [discriminate|].
    injection H as <- <-. simpl. split; [reflexivity|]. right.
    split; [by apply parseIPv6_length in H6|].
    apply orb_false_elim in Hcheck as [[_ Hneg]%orb_false_elim Hbig].
    change (8 * net.IPv6len) with 128 in *.
    by rewrite CIDRMask_length by auto.
Qed.

(** [IP.Mask] on an IPv4 address in 16-byte form and a 4-byte mask. *)
Lemma Mask_IPv4 (a b c d m0 m1 m2 m3 : Z) :
  net.Mask (net.IPv4 a b c d) [m0; m1; m2; m3]
  = [Z.land a m0; Z.land b m1; Z.land c m2; Z.land d m3].
Proof. reflexivity. Qed.

(** [IP.Mask] on an address and a mask of the same length (other than the
    mixed 4/16 cases) is the bytewise conjunction. *)
Lemma Mask_16 (ip m : list Z) :
  length ip = 16%nat -> length m = 16%nat ->
  net.Mask ip m = zip_with Z.land ip m.
Proof.
  intros Hip Hm. unfold net.Mask, net.llen. rewrite Hip, Hm.
  change (Z.of_nat 16 =? net.IPv4len) with false.
  rewrite andb_false_r. cbn [andb]. rewrite Hm.
  change (Z.of_nat 16 =? net.IPv4len) with false. cbn [andb].
  rewrite Hip. reflexivity.
Qed.

(** X6. Whether the derived DNS address lies in the service network.  Let
    the serviceCIDR parse to the written address [ip] and the network [n].
    The address with its last byte set to 10 has the network base of [n]
    under the mask of [n], if and only if 10 and the last byte written
    agree on the bits that the last byte of the mask keeps.  So it always
    does when the mask leaves the last byte free (IPv4 prefixes up to /24),
    and for a longer prefix it does only if 10 happens to fall in the
    range. *)
Theorem derived_address_in_network (cidr : string) (ip : net.IP) (n : net.IPNet) :
  net.ParseCIDR cidr = inl (ip, n) ->
  (net.Mask (<[15%nat := 10]> ip) (net.IPNet_Mask n) = net.IPNet_IP n
   <-> Z.land 10 (last_byte (net.IPNet_Mask n))
       = Z.land (last_byte ip) (last_byte (net.IPNet_Mask n)))
  /\ (last_byte (net.IPNet_Mask n) = 0 ->
      net.Mask (<[15%nat := 10]> ip) (net.IPNet_Mask n) = net.IPNet_IP n).
Proof.
  intros (Hnet & Hshape)%ParseCIDR_inv. rewrite Hnet.
  assert (Hiff : net.Mask (<[15%nat := 10]> ip) (net.IPNet_Mask n)
                 = net.Mask ip (net.IPNet_Mask n)
                 <-> Z.land 10 (last_byte (net.IPNet_Mask n))
                     = Z.land (last_byte ip) (last_byte (net.IPNet_Mask n))).
  { destruct Hshape as [(a & b & c & d & -> & Hm)|[Hip Hm]].
    - destruct (net.IPNet_Mask n) as [|m0 [|m1 [|m2 [|m3 [|m4 rest]]]]];
        try discriminate Hm.
      change (<[15%nat := 10]> (net.IPv4 a b c d)) with (net.IPv4 a b c 10).
      rewrite !Mask_IPv4.
      change (last_byte [m0; m1; m2; m3]) with m3.
      change (last_byte (net.IPv4 a b c d)) with d.
      split; intros H; congruence.
    - assert (Hip' : length (<[15%nat := 10]> ip) = 16%nat)
        by (rewrite <- Hip; apply length_insert).
      rewrite (Mask_16 _ _ Hip' Hm), (Mask_16 _ _ Hip Hm). clear Hip'.
      do 17 (destruct ip as [|? ip]; try discriminate Hip).
      destruct (net.IPNet_Mask n) as [|? m]; [discriminate Hm|].
      do 16 (destruct m as [|? m]; try discriminate Hm).
      simpl. unfold last_byte. simpl.
      split; intros H; congruence. }
  split; [exact Hiff|].
  intros Hfree. apply Hiff. rewrite Hfree. by rewrite !Z.land_0_r.
Qed.

Lemma derived_address_in_network_witness :
  net.ParseCIDR "10.0.5.7/16"
  = inl (net.IPv4 10 0 5 7,
         {| net.IPNet_IP := [10; 0; 0; 0]; net.IPNet_Mask := [255; 255; 0; 0] |})
  /\ net.Mask (net.IPv4 10 0 5 10) [255; 255; 0; 0] = [10; 0; 0; 0].
Proof.
  split; [vm_compute; reflexivity|].
  refine (proj2 (derived_address_in_network "10.0.5.7/16" (net.IPv4 10 0 5 7)
                   {| net.IPNet_IP := [10; 0; 0; 0];
                      net.IPNet_Mask := [255; 255; 0; 0] |} _) _);
    [vm_compute; reflexivity | reflexivity].
Defined.

(** ** Reconcile as a whole *)
Section Further.

Context {P : Type}.
Variable c : Client P.

Local Ltac exec :=
  unfold Reconcile, Delete, Get, bind, as_Spec, lift, deref, return_, ret,
    Client_Get, Client_CreateOrUpdate, Client_Delete, logged; simpl.

(** The test of line 208 is the negation of [is_terminal]. *)
Lemma gate_is_terminal (ps : string) :
  bool_decide (ps <> infrav1alpha4.Canceled)
  && bool_decide (ps <> infrav1alpha4.Failed)
  && bool_decide (ps <> infrav1alpha4.Succeeded)
  = negb (is_terminal ps).
Proof.
  unfold is_terminal. repeat case_bool_decide; simpl; try reflexivity; congruence.
Qed.

(** What Reconcile does once the desired resource is built, read off the
    answer of Get. *)
Lemma Reconcile_table (s : Spec) (w : World P)
  (desired existing : containerservice.ManagedCluster) (err : option error) :
  managedCluster s = Ok desired ->
  client_Get c (ResourceGroupName s) (Name s) (provider w) = (existing, err) ->
  let get := CallGet (ResourceGroupName s) (Name s) in
  let put := CallCreateOrUpdate (ResourceGroupName s) (Name s) desired in
  let write (prefix : string) :=
    (match fst (client_CreateOrUpdate c (ResourceGroupName s) (Name s) desired (provider w)) with
     | Some e => Err (Errorf_w prefix e)
     | None => Ok tt
     end,
     Build_World
       (snd (client_CreateOrUpdate c (ResourceGroupName s) (Name s) desired (provider w)))
       (calls w ++ [get; put])) in
  Reconcile c (SpecPtr (Some s)) w
  = match err with
    | Some e =>
        if notFound e then write "failed to create managed cluster, "%string
        else (Err (withMessage e "failed to get existing managed cluster"), logged w [get])
    | None =>
        match containerservice.ManagedClusterProperties_ existing with
        | None => (Panic NilDereference, logged w [get])
        | Some props =>
            match containerservice.ProvisioningState props with
            | None => (Panic NilDereference, logged w [get])
            | Some ps =>
                if is_terminal ps then
                  if bool_decide (containerservice.KubernetesVersion props = Some (Version s))
                  then (Ok tt, logged w [get])
                  else write "failed to update managed cluster, "%string
                else (Err (errorString (non_terminal_msg ps)), logged w [get])
            end
        end
    end.
Proof.
  intros Hbuild Hget get put write. subst write put get.
  exec. rewrite Hbuild, Hget. simpl.
  destruct err as [e|]; simpl.
  - destruct (notFound e); simpl; [|reflexivity].
    destruct (client_CreateOrUpdate c _ _ _ _) as [[e'|] p']; simpl;
      by rewrite <- app_assoc.
  - destruct (containerservice.ManagedClusterProperties_ existing) as [props|];
      simpl; [|reflexivity].
    destruct (containerservice.ProvisioningState props) as [ps|]; simpl; [|reflexivity].
    rewrite gate_is_terminal. destruct (is_terminal ps); simpl; [|reflexivity].
    destruct (managedCluster_Ok _ _ Hbuild) as (dprops & np & _ & Hdprops & Hver & _).
    rewrite Hdprops. simpl. rewrite Hver, diff_is_empty_normalized.
    rewrite (bool_decide_ext _ (containerservice.KubernetesVersion props = Some (Version s)))
      by (split; congruence).
    destruct (bool_decide _); simpl; [reflexivity|].
    destruct (client_CreateOrUpdate c _ _ _ _) as [[e'|] p']; simpl;
      by rewrite <- app_assoc.
Qed.

(** X7. The update path.  When the desired resource is built, Get succeeds,
    the existing resource is in state Succeeded, Failed or Canceled and its
    Kubernetes version is not the version of the spec (it may be missing
    altogether), Reconcile issues, after the Get, exactly one CreateOrUpdate
    carrying the whole built resource; it returns success if the provider
    accepts the call and otherwise the provider's error wrapped as "failed
    to update managed cluster, ...". *)
Theorem update_when_version_differs (s : Spec) (w : World P)
  (desired existing : containerservice.ManagedCluster)
  (props : containerservice.ManagedClusterProperties) (ps : string)
  (err : option error) (p' : P) :
  managedCluster s = Ok desired ->
  client_Get c (ResourceGroupName s) (Name s) (provider w) = (existing, None) ->
  containerservice.ManagedClusterProperties_ existing = Some props ->
  containerservice.ProvisioningState props = Some ps ->
  is_terminal ps = true ->
  containerservice.KubernetesVersion props <> Some (Version s) ->
  client_CreateOrUpdate c (ResourceGroupName s) (Name s) desired (provider w) = (err, p') ->
  Reconcile c (SpecPtr (Some s)) w
  = (match err with
     | Some e => Err (Errorf_w "failed to update managed cluster, " e)
     | None => Ok tt
     end,
     Build_World p'
       (calls w ++ [CallGet (ResourceGroupName s) (Name s);
                    CallCreateOrUpdate (ResourceGroupName s) (Name s) desired])).
Proof.
  intros Hbuild Hget Hprops Hps Hterm Hver Hput.
  rewrite (Reconcile_table _ _ _ _ _ Hbuild Hget). simpl.
  rewrite Hprops, Hps, Hterm, (bool_decide_eq_false_2 _ Hver), Hput. reflexivity.
Qed.

(** X8. The footprint of one Reconcile, for every input.  The world it
    leaves is the world it found, or that world with one Get for the
    resource of the spec logged, or -- only when the desired resource was
    built -- the provider state returned by the client's CreateOrUpdate
    with the Get and that one CreateOrUpdate logged.  The CreateOrUpdate
    names the same resource group and name as the Get and carries exactly
    the built resource.  Reconcile never issues Delete or GetCredentials,
    and the provider's state changes only through the CreateOrUpdate. *)
Theorem Reconcile_footprint (spec : Iface) (w : World P) :
  snd (Reconcile c spec w) = w
  \/ (exists s,
        spec = SpecPtr (Some s)
        /\ snd (Reconcile c spec w) = logged w [CallGet (ResourceGroupName s) (Name s)])
  \/ (exists s desired,
        spec = SpecPtr (Some s)
        /\ managedCluster s = Ok desired
        /\ snd (Reconcile c spec w)
           = Build_World
               (snd (client_CreateOrUpdate c (ResourceGroupName s) (Name s) desired
                       (provider w)))
               (calls w ++ [CallGet (ResourceGroupName s) (Name s);
                            CallCreateOrUpdate (ResourceGroupName s) (Name s) desired])).
Proof.
  destruct spec as [[s|]|]; [|by left..].
  destruct (managedCluster s) as [desired| |] eqn:Hbuild;
    [|left; exec; by rewrite Hbuild..].
  destruct (client_Get c (ResourceGroupName s) (Name s) (provider w))
    as [existing err] eqn:Hget.
  rewrite (Reconcile_table _ _ _ _ _ Hbuild Hget). simpl.
  repeat match goal with
    | |- context [match ?x with _ => _ end] => destruct x
    end; simpl; eauto 8.
Qed.

(** X9. When the write is sent.  With the desired resource built and the
    answer of Get at hand, Reconcile sends a CreateOrUpdate if and only if
    Get reported "not found", or Get succeeded with a resource in a
    terminal state whose Kubernetes version is not the one of the spec.
    In every other case -- another Get error, a non-terminal state, an
    equal version, a missing state -- it sends no mutating call. *)
Theorem CreateOrUpdate_iff (s : Spec) (w : World P)
  (desired existing : containerservice.ManagedCluster) (err : option error) :
  managedCluster s = Ok desired ->
  client_Get c (ResourceGroupName s) (Name s) (provider w) = (existing, err) ->
  let sent := mutating_calls (new_calls (Reconcile c (SpecPtr (Some s))) w) in
  (sent = [CallCreateOrUpdate (ResourceGroupName s) (Name s) desired]
   <-> (ResourceNotFound err = true
        \/ (err = None
            /\ exists props ps,
                 containerservice.ManagedClusterProperties_ existing = Some props
                 /\ containerservice.ProvisioningState props = Some ps
                 /\ is_terminal ps = true
                 /\ containerservice.KubernetesVersion props <> Some (Version s))))
  /\ (sent = [] \/ sent = [CallCreateOrUpdate (ResourceGroupName s) (Name s) desired]).
Proof.
  intros Hbuild Hget sent. subst sent. unfold new_calls.
  rewrite (Reconcile_table _ _ _ _ _ Hbuild Hget). simpl.
  destruct err as [e|]; simpl.
  - destruct (notFound e) eqn:Hnf; simpl; rewrite drop_app_length; simpl.
    + split; [|by right]. split; [intros _; by left | done].
    + split; [|by left]. split; [done|]. intros [Hc|[Hc _]]; discriminate.
  - destruct (containerservice.ManagedClusterProperties_ existing) as [props|] eqn:Hprops;
      simpl.
    2: { rewrite drop_app_length; simpl. split; [|by left]. split; [done|].
         intros [Hc|[_ (props0 & ps0 & Hp & _)]]; discriminate. }
    destruct (containerservice.ProvisioningState props) as [ps|] eqn:Hps; simpl.
    2: { rewrite drop_app_length; simpl. split; [|by left]. split; [done|].
         intros [Hc|[_ (props0 & ps0 & Hp & Hs & _)]]; [discriminate|].
         injection Hp as <-. congruence. }
    destruct (is_terminal ps) eqn:Hterm; simpl.
    2: { rewrite drop_app_length; simpl. split; [|by left]. split; [done|].
         intros [Hc|[_ (props0 & ps0 & Hp & Hs & Ht & _)]]; [discriminate|].
         injection Hp as <-. congruence. }
    case_bool_decide as Hver; simpl; rewrite drop_app_length; simpl.
    + split; [|by left]. split; [done|].
      intros [Hc|[_ (props0 & ps0 & Hp & Hs & Ht & Hv)]]; [discriminate|].
      injection Hp as <-. congruence.
    + split; [|by right]. split; [|done].
      intros _. right. split; [done|]. by exists props, ps.
Qed.

(** X10. When Reconcile reports success.  With the desired resource built
    and the answer of Get at hand, Reconcile returns nil if and only if
    either it sent the CreateOrUpdate (X9) and the provider accepted it, or
    Get succeeded with a resource in a terminal state that already has the
    version of the spec.  In particular a failed read, a resource in
    transition and a rejected write are never reported as success. *)
Theorem Reconcile_success_iff (s : Spec) (w : World P)
  (desired existing : containerservice.ManagedCluster) (err : option error) :
  managedCluster s = Ok desired ->
  client_Get c (ResourceGroupName s) (Name s) (provider w) = (existing, err) ->
  fst (Reconcile c (SpecPtr (Some s)) w) = Ok tt
  <-> ((fst (client_CreateOrUpdate c (ResourceGroupName s) (Name s) desired (provider w))
        = None
        /\ (ResourceNotFound err = true
            \/ (err = None
                /\ exists props ps,
                     containerservice.ManagedClusterProperties_ existing = Some props
                     /\ containerservice.ProvisioningState props = Some ps
                     /\ is_terminal ps = true
                     /\ containerservice.KubernetesVersion props <> Some (Version s))))
       \/ (err = None
           /\ exists props ps,
                containerservice.ManagedClusterProperties_ existing = Some props
                /\ containerservice.ProvisioningState props = Some ps
                /\ is_terminal ps = true
                /\ containerservice.KubernetesVersion props = Some (Version s))).
Proof.
  intros Hbuild Hget.
  rewrite (Reconcile_table _ _ _ _ _ Hbuild Hget). simpl.
  destruct err as [e|]; simpl.
  - destruct (notFound e) eqn:Hnf; simpl.
    + destruct (fst (client_CreateOrUpdate c _ _ _ _)) as [e'|]; simpl.
      * split; [done|]. intros [[Hc _]|[Hc _]]; discriminate.
      * split; [|done]. intros _. left. split; [done | by left].
    + split; [done|]. intros [[_ [Hc|[Hc _]]]|[Hc _]]; discriminate.
  - destruct (containerservice.ManagedClusterProperties_ existing) as [props|] eqn:Hprops;
      simpl.
    2: { split; [done|].
         intros [[_ [Hc|[_ (props0 & ps0 & Hp & _)]]]|[_ (props0 & ps0 & Hp & _)]];
           discriminate. }
    destruct (containerservice.ProvisioningState props) as [ps|] eqn:Hps; simpl.
    2: { split; [done|].
         intros [[_ [Hc|[_ (props0 & ps0 & Hp & Hs & _)]]]|[_ (props0 & ps0 & Hp & Hs & _)]];
           try discriminate; injection Hp as <-; congruence. }
    destruct (is_terminal ps) eqn:Hterm; simpl.
    2: { split; [done|].
         intros [[_ [Hc|[_ (props0 & ps0 & Hp & Hs & Ht & _)]]]
                |[_ (props0 & ps0 & Hp & Hs & Ht & _)]];
           try discriminate; injection Hp as <-; congruence. }
    case_bool_decide as Hver; simpl.
    + split; [|done]. intros _. right. split; [done|]. by exists props, ps.
    + destruct (fst (client_CreateOrUpdate c _ _ _ _)) as [e'|]; simpl.
      * split; [done|].
        intros [[Hc _]|[_ (props0 & ps0 & Hp & Hs & Ht & Hv)]]; [discriminate|].
        injection Hp as <-. congruence.
      * split; [|done]. intros _. left. split; [done|]. right. split; [done|].
        by exists props, ps.
Qed.

(** X11. When Reconcile panics.  For every input, Reconcile panics if and
    only if the spec is a nil pointer, or the desired resource was built,
    Get succeeded, and the fetched resource lacks its properties block or
    its provisioning state.  The panic is always a nil dereference (never an
    index out of range), and no mutating call has been issued when it
    occurs. *)
Theorem Reconcile_panics_iff (spec : Iface) (w : World P) :
  ((exists p, fst (Reconcile c spec w) = Panic p)
   <-> (spec = SpecPtr None
        \/ exists s desired existing,
             spec = SpecPtr (Some s)
             /\ managedCluster s = Ok desired
             /\ client_Get c (ResourceGroupName s) (Name s) (provider w) = (existing, None)
             /\ forall props,
                  containerservice.ManagedClusterProperties_ existing = Some props ->
                  containerservice.ProvisioningState props = None))
  /\ (forall p, fst (Reconcile c spec w) = Panic p ->
      p = NilDereference /\ mutating_calls (new_calls (Reconcile c spec) w) = []).
Proof.
  destruct spec as [[s|]|].
  2: { split; [split; [by left | by exists NilDereference]|].
       intros p [= <-]. split; [done|]. unfold new_calls. simpl. by rewrite drop_all. }
  2: { split; [split; [by intros [p Hp] | by intros [?|(? & ? & ? & ? & _)]]|].
       by intros p Hp. }
  destruct (managedCluster s) as [desired|e|p0] eqn:Hbuild.
  2: { assert (Hrun : Reconcile c (SpecPtr (Some s)) w = (Err e, w))
         by (exec; by rewrite Hbuild).
       rewrite Hrun. simpl. split; [|by intros p Hp].
       split; [by intros [p Hp]|].
       intros [?|(s' & d & ex & [= <-] & Hb & _)]; congruence. }
  2: { by apply managedCluster_no_panic in Hbuild. }
  destruct (client_Get c (ResourceGroupName s) (Name s) (provider w))
    as [existing err] eqn:Hget.
  unfold new_calls. rewrite (Reconcile_table _ _ _ _ _ Hbuild Hget). simpl.
  destruct err as [e|]; simpl.
  - assert (Hnone : forall p,
              fst (if notFound e
                   then (match fst (client_CreateOrUpdate c (ResourceGroupName s) (Name s)
                                      desired (provider w)) with
                         | Some e0 => Err (Errorf_w "failed to create managed cluster, " e0)
                         | None => Ok tt
                         end,
                         Build_World
                           (snd (client_CreateOrUpdate c (ResourceGroupName s) (Name s)
                                   desired (provider w)))
                           (calls w ++ [CallGet (ResourceGroupName s) (Name s);
                                        CallCreateOrUpdate (ResourceGroupName s) (Name s)
                                          desired]))
                   else (Err (withMessage e "failed to get existing managed cluster"),
                         logged w [CallGet (ResourceGroupName s) (Name s)]))
              <> (Panic p : result unit)).
    { intros p. destruct (notFound e); simpl; [|done].
      by destruct (fst (client_CreateOrUpdate c _ _ _ _)). }
    split; [|by intros p Hp%Hnone].
    split; [by intros [p Hp%Hnone]|].
    intros [?|(s' & d & ex & [= <-] & _ & Hg & _)]; congruence.
  - destruct (containerservice.ManagedClusterProperties_ existing) as [props|] eqn:Hprops;
      simpl.
    2: { split.
         - split; [|by exists NilDereference].
           intros _. right. exists s, desired, existing. repeat split; try done.
           intros props Hp. congruence.
         - intros p [= <-]. split; [done|]. by rewrite drop_app_length. }
    destruct (containerservice.ProvisioningState props) as [ps|] eqn:Hps; simpl.
    2: { split.
         - split; [|by exists NilDereference].
           intros _. right. exists s, desired, existing. repeat split; try done.
           intros props0 Hp. congruence.
         - intros p [= <-]. split; [done|]. by rewrite drop_app_length. }
    assert (Hnone : forall p,
              fst (if is_terminal ps
                   then
                     if bool_decide (containerservice.KubernetesVersion props
                                     = Some (Version s))
                     then (Ok tt, logged w [CallGet (ResourceGroupName s) (Name s)])
                     else (match fst (client_CreateOrUpdate c (ResourceGroupName s)
                                        (Name s) desired (provider w)) with
                           | Some e0 =>
                               Err (Errorf_w "failed to update managed cluster, " e0)
                           | None => Ok tt
                           end,
                           Build_World
                             (snd (client_CreateOrUpdate c (ResourceGroupName s) (Name s)
                                     desired (provider w)))
                             (calls w ++ [CallGet (ResourceGroupName s) (Name s);
                                          CallCreateOrUpdate (ResourceGroupName s) (Name s)
                                            desired]))
                   else (Err (errorString (non_terminal_msg ps)),
                         logged w [CallGet (ResourceGroupName s) (Name s)]))
              <> (Panic p : result unit)).
    { intros p. destruct (is_terminal ps); simpl; [|done].
      destruct (bool_decide _); simpl; [done|].
      by destruct (fst (client_CreateOrUpdate c _ _ _ _)). }
    split; [|by intros p Hp%Hnone].
    split; [by intros [p Hp%Hnone]|].
    intros [?|(s' & d & ex & [= <-] & _ & Hg & Hmiss)]; [done|].
    rewrite Hget in Hg. injection Hg as <-. specialize (Hmiss _ Hprops). congruence.
Qed.

(** X12. A write that has settled is not repeated.  If one Reconcile wrote
    the desired resource and the provider accepted it, and the provider then
    reports the resource in a terminal state with the version of the spec, a
    second Reconcile right after the first returns success and only issues
    its Get: the two invocations together send exactly one mutating call. *)
Theorem second_pass_after_settled_write (s : Spec) (w : World P)
  (desired existing : containerservice.ManagedCluster)
  (props : containerservice.ManagedClusterProperties) (ps : string) (p' : P) :
  let get := CallGet (ResourceGroupName s) (Name s) in
  let put := CallCreateOrUpdate (ResourceGroupName s) (Name s) desired in
  managedCluster s = Ok desired ->
  Reconcile c (SpecPtr (Some s)) w = (Ok tt, Build_World p' (calls w ++ [get; put])) ->
  client_Get c (ResourceGroupName s) (Name s) p' = (existing, None) ->
  containerservice.ManagedClusterProperties_ existing = Some props ->
  containerservice.ProvisioningState props = Some ps ->
  is_terminal ps = true ->
  containerservice.KubernetesVersion props = Some (Version s) ->
  Reconcile_twice c (SpecPtr (Some s)) w
  = (Ok tt, Build_World p' (calls w ++ [get; put; get]))
  /\ mutating_calls (new_calls (Reconcile_twice c (SpecPtr (Some s))) w) = [put].
Proof.
  intros get put Hbuild Hfirst Hget Hprops Hps Hterm Hver.
  assert (Htwice : Reconcile_twice c (SpecPtr (Some s)) w
                   = (Ok tt, Build_World p' (calls w ++ [get; put; get]))).
  { unfold Reconcile_twice, bind at 1. rewrite Hfirst.
    rewrite (Reconcile_table s (Build_World p' (calls w ++ [get; put]))
               desired existing None Hbuild Hget).
    simpl. rewrite Hprops, Hps, Hterm, (bool_decide_eq_true_2 _ Hver).
    unfold logged. simpl. by rewrite <- app_assoc. }
  split; [exact Htwice|].
  unfold new_calls. rewrite Htwice. simpl. by rewrite drop_app_length.
Qed.

(** X13. The guard on the spec argument, for the three entry points that
    take one.  A spec of another type makes Get, Reconcile and Delete return
    the error "expected managed cluster specification"; a nil pointer to a
    Spec passes the type assertion and panics at the first field access.  In
    both cases the world is left untouched: no call reaches the provider.
    With a usable spec, Get hands back the answer of the client as it is --
    a "not found" error included -- after exactly one Get for the resource
    group and name of the spec.  GetCredentials takes no spec and has no
    failure of its own: it hands back the answer of the client for the
    group and name it is given. *)
Theorem spec_argument_guard (w : World P) :
  (forall spec, (forall s, spec <> SpecPtr (Some s)) ->
     snd (Get c spec w) = w /\ snd (Reconcile c spec w) = w /\ snd (Delete c spec w) = w)
  /\ fst (Get c OtherValue w) = Err (errorString "expected managed cluster specification")
  /\ fst (Reconcile c OtherValue w) = Err (errorString "expected managed cluster specification")
  /\ fst (Delete c OtherValue w) = Err (errorString "expected managed cluster specification")
  /\ fst (Get c (SpecPtr None) w) = Panic NilDereference
  /\ fst (Reconcile c (SpecPtr None) w) = Panic NilDereference
  /\ fst (Delete c (SpecPtr None) w) = Panic NilDereference
  /\ (forall s,
        Get c (SpecPtr (Some s)) w
        = (Ok (client_Get c (ResourceGroupName s) (Name s) (provider w)),
           logged w [CallGet (ResourceGroupName s) (Name s)]))
  /\ (forall group name,
        GetCredentials c group name w
        = (Ok (client_GetCredentials c group name (provider w)),
           logged w [CallGetCredentials group name])).
Proof.
  split; [|repeat split; reflexivity].
  intros [[s|]|] Hspec; [by specialize (Hspec s) | by repeat split..].
Qed.

End Further.

(** ** The further properties at concrete inputs *)

Lemma update_when_version_differs_witness :
  is_terminal "Succeeded" = true
  /\ Reconcile outdated_client (SpecPtr (Some spec_16)) start
     = (Ok tt,
        Build_World tt [CallGet "my-rg" "my-cluster";
                        CallCreateOrUpdate "my-rg" "my-cluster" (built spec_16)])
  /\ Reconcile update_rejected_client (SpecPtr (Some spec_16)) start
     = (Err (wrapError "failed to update managed cluster, TooManyRequests" throttled),
        Build_World tt [CallGet "my-rg" "my-cluster";
                        CallCreateOrUpdate "my-rg" "my-cluster" (built spec_16)])
  /\ Reconcile unversioned_client (SpecPtr (Some spec_16)) start
     = (Ok tt,
        Build_World tt [CallGet "my-rg" "my-cluster";
                        CallCreateOrUpdate "my-rg" "my-cluster" (built spec_16)]).
Proof.
  split; [reflexivity|]. split; [|split].
  - refine (update_when_version_differs outdated_client spec_16 start (built spec_16)
              (existing_cluster (Some "Succeeded"%string) (Some "1.20.7"%string))
              _ "Succeeded" None tt _ _ _ _ _ _ _);
      try reflexivity. discriminate.
  - refine (update_when_version_differs update_rejected_client spec_16 start
              (built spec_16)
              (existing_cluster (Some "Succeeded"%string) (Some "1.20.7"%string))
              _ "Succeeded" (Some throttled) tt _ _ _ _ _ _ _);
      try reflexivity. discriminate.
  - refine (update_when_version_differs unversioned_client spec_16 start (built spec_16)
              (existing_cluster (Some "Failed"%string) None)
              _ "Failed" None tt _ _ _ _ _ _ _);
      try reflexivity. discriminate.
Defined.

Lemma CreateOrUpdate_iff_witness :
  mutating_calls (new_calls (Reconcile outdated_client (SpecPtr (Some spec_16))) start)
  = [CallCreateOrUpdate "my-rg" "my-cluster" (built spec_16)]
  /\ ~ (mutating_calls (new_calls (Reconcile creating_client (SpecPtr (Some spec_16))) start)
        = [CallCreateOrUpdate "my-rg" "my-cluster" (built spec_16)]).
Proof.
  split.
  - refine (proj2 (proj1 (CreateOrUpdate_iff outdated_client spec_16 start (built spec_16)
                            (existing_cluster (Some "Succeeded"%string)
                               (Some "1.20.7"%string))
                            None _ _)) _); [reflexivity | reflexivity |].
    right. split; [reflexivity|]. eexists _, _.
    split; [reflexivity|]. split; [reflexivity|]. split; [reflexivity | discriminate].
  - intros Hsent.
    destruct (proj1 (proj1 (CreateOrUpdate_iff creating_client spec_16 start
                              (built spec_16)
                              (existing_cluster (Some "Creating"%string)
                                 (Some "1.21.2"%string))
                              None eq_refl eq_refl)) Hsent)
      as [Hnf|[_ (props & ps & Hprops & Hps & Hterm & _)]]; [discriminate|].
    injection Hprops as <-. injection Hps as <-. discriminate Hterm.
Defined.

Lemma Reconcile_success_iff_witness :
  fst (Reconcile up_to_date_client (SpecPtr (Some spec_16)) start) = Ok tt
  /\ fst (Reconcile absent_client (SpecPtr (Some spec_16)) start) = Ok tt
  /\ ~ (fst (Reconcile create_rejected_client (SpecPtr (Some spec_16)) start) = Ok tt).
Proof.
  split; [|split].
  - refine (proj2 (Reconcile_success_iff up_to_date_client spec_16 start (built spec_16)
                     (existing_cluster (Some "Succeeded"%string) (Some "1.21.2"%string))
                     None _ _) _); [reflexivity | reflexivity |].
    right. split; [reflexivity|]. eexists _, _.
    split; [reflexivity|]. split; [reflexivity|]. split; reflexivity.
  - refine (proj2 (Reconcile_success_iff absent_client spec_16 start (built spec_16)
                     bare_cluster (Some not_found) _ _) _); [reflexivity | reflexivity |].
    left. split; [reflexivity | left; reflexivity].
  - intros Hok.
    destruct (proj1 (Reconcile_success_iff create_rejected_client spec_16 start
                       (built spec_16) bare_cluster (Some not_found) eq_refl eq_refl) Hok)
      as [[Hput _]|[Herr _]]; discriminate.
Defined.

Lemma second_pass_after_settled_write_witness :
  is_terminal "Succeeded" = true
  /\ Reconcile_twice (store "Succeeded") (SpecPtr (Some spec_16)) (Build_World None [])
     = (Ok tt,
        Build_World (Some (stored "Succeeded" (built spec_16)))
          [CallGet "my-rg" "my-cluster";
           CallCreateOrUpdate "my-rg" "my-cluster" (built spec_16);
           CallGet "my-rg" "my-cluster"]).
Proof.
  split; [reflexivity|].
  refine (proj1 (second_pass_after_settled_write (store "Succeeded") spec_16
                   (Build_World None []) (built spec_16)
                   (stored "Succeeded" (built spec_16)) _ "Succeeded"
                   (Some (stored "Succeeded" (built spec_16))) _ _ _ _ _ _ _));
    reflexivity.
Defined.

(** ** The derived DNS text reads back as the address it denotes *)

Lemma append_cons (ch : ascii) (s t : string) :
  String.append (String ch s) t = String ch (String.append s t).
Proof. reflexivity. Qed.

Lemma append_empty (t : string) : String.append EmptyString t = t.
Proof. reflexivity. Qed.

Lemma byte_of_char_of (x : Z) : is_byte x -> byte_of (char_of x) = x.
Proof.
  intros [Hlo Hhi]. unfold byte_of, char_of.
  rewrite N_ascii_embedding by lia. lia.
Qed.

Lemma byte_is_byte (n : Z) : is_byte (net.byte n).
Proof. unfold is_byte, net.byte. apply Z.mod_pos_bound. lia. Qed.

Lemma dtoi_loop_digit (d : Z) (s : string) (n i : Z) :
  0 <= d <= 9 -> n * 10 + d < net.big ->
  net.dtoi_loop (String (char_of (d + 48)) s) n i = net.dtoi_loop s (n * 10 + d) (i + 1).
Proof.
  intros Hd Hbig. cbn [net.dtoi_loop].
  rewrite byte_of_char_of by (unfold is_byte; lia).
  replace (48 <=? d + 48) with true by (symmetry; apply Z.leb_le; lia).
  replace (d + 48 <=? 57) with true by (symmetry; apply Z.leb_le; lia).
  cbn [andb]. replace (d + 48 - 48) with d by lia.
  replace (net.big <=? n * 10 + d) with false by (symmetry; apply Z.leb_gt; lia).
  reflexivity.
Qed.

Lemma dtoi_loop_stop (s : string) (n i : Z) :
  not_digit_first s = true -> net.dtoi_loop s n i = net.dtoi_end n i.
Proof.
  destruct s as [|ch s]; [reflexivity|]. simpl. intros H.
  apply negb_true_iff in H. by rewrite H.
Qed.

(** [dtoi] reads the decimal text of a byte back, and stops after it. *)
Lemma dtoi_ubtoa (v : Z) (rest : string) :
  is_byte v -> not_digit_first rest = true ->
  net.dtoi (String.append (net.ubtoa v) rest) = (v, len (net.ubtoa v), true).
Proof.
  intros [Hlo Hhi] Hrest. unfold net.dtoi, net.ubtoa.
  assert (Hbig : net.big = 16777215) by reflexivity.
  destruct (v <? 10) eqn:H10; [apply Z.ltb_lt in H10 | apply Z.ltb_ge in H10].
  - rewrite !append_cons, append_empty. rewrite dtoi_loop_digit by lia.
    rewrite dtoi_loop_stop by done. unfold net.dtoi_end; simpl; repeat f_equal; lia.
  - destruct (v <? 100) eqn:H100; [apply Z.ltb_lt in H100 | apply Z.ltb_ge in H100].
    + rewrite !append_cons, append_empty.
      assert (H1 : 0 <= v / 10 <= 9) by (Z.div_mod_to_equations; lia).
      assert (H2 : 0 <= v mod 10 <= 9) by (Z.div_mod_to_equations; lia).
      rewrite dtoi_loop_digit by lia.
      rewrite dtoi_loop_digit by lia.
      rewrite dtoi_loop_stop by done. unfold net.dtoi_end; simpl.
      repeat f_equal; Z.div_mod_to_equations; lia.
    + rewrite !append_cons, append_empty.
      assert (H1 : 0 <= v / 100 <= 9) by (Z.div_mod_to_equations; lia).
      assert (H2 : 0 <= (v / 10) mod 10 <= 9) by (Z.div_mod_to_equations; lia).
      assert (H3 : 0 <= v mod 10 <= 9) by (Z.div_mod_to_equations; lia).
      rewrite dtoi_loop_digit by lia.
      rewrite dtoi_loop_digit by lia.
      rewrite dtoi_loop_digit by lia.
      rewrite dtoi_loop_stop by done. unfold net.dtoi_end; simpl.
      repeat f_equal; Z.div_mod_to_equations; lia.
Qed.

Lemma append_empty_r (s : string) : String.append s EmptyString = s.
Proof. induction s as [|ch s IH]; [reflexivity|]. by rewrite append_cons, IH. Qed.

Lemma from_ubtoa (v : Z) (rest : string) :
  from (len (net.ubtoa v)) (String.append (net.ubtoa v) rest) = rest.
Proof. unfold net.ubtoa. destruct (v <? 10), (v <? 100); reflexivity. Qed.

Lemma len_append_ubtoa (v : Z) (rest : string) :
  (len (String.append (net.ubtoa v) rest) =? 0) = false.
Proof. unfold net.ubtoa. destruct (v <? 10), (v <? 100); reflexivity. Qed.

(** One turn of the loop of [parseIPv4] on the text of a byte: the first
    octet, and an octet after a dot. *)
Lemma parseIPv4_loop_first (left : nat) (v : Z) (rest : string) (p : list Z) :
  is_byte v -> not_digit_first rest = true ->
  net.parseIPv4_loop (S left) 0 (String.append (net.ubtoa v) rest) p
  = net.parseIPv4_loop left 1 rest (net.set 0 v p).
Proof.
  intros Hv Hrest. cbn [net.parseIPv4_loop].
  rewrite len_append_ubtoa. change (0 <? 0) with false. cbv iota.
  rewrite dtoi_ubtoa by done. cbv iota beta.
  replace (255 <? v) with false by (symmetry; apply Z.ltb_ge; unfold is_byte in Hv; lia).
  cbn [negb orb]. rewrite from_ubtoa.
  unfold net.byte. rewrite Z.mod_small by exact Hv. reflexivity.
Qed.

Lemma parseIPv4_loop_next (left : nat) (i v : Z) (rest : string) (p : list Z) :
  0 < i -> is_byte v -> not_digit_first rest = true ->
  net.parseIPv4_loop (S left) i (String "."%char (String.append (net.ubtoa v) rest)) p
  = net.parseIPv4_loop left (i + 1) rest (net.set i v p).
Proof.
  intros Hi Hv Hrest. cbn [net.parseIPv4_loop].
  replace (len (String "."%char (String.append (net.ubtoa v) rest)) =? 0) with false
    by reflexivity.
  replace (0 <? i) with true by (symmetry; apply Z.ltb_lt; lia).
  change (at_ (String "."%char (String.append (net.ubtoa v) rest)) 0 =? 46) with true.
  change (from 1 (String "."%char (String.append (net.ubtoa v) rest)))
    with (String.append (net.ubtoa v) rest).
  cbv iota. rewrite dtoi_ubtoa by done. cbv iota beta.
  replace (255 <? v) with false by (symmetry; apply Z.ltb_ge; unfold is_byte in Hv; lia).
  cbn [negb orb]. rewrite from_ubtoa.
  unfold net.byte. rewrite Z.mod_small by exact Hv. reflexivity.
Qed.

(** [parseIPv4] reads the dotted text of four bytes back as the address. *)
Lemma parseIPv4_dotted (a b c d : Z) :
  is_byte a -> is_byte b -> is_byte c -> is_byte d ->
  net.parseIPv4 (dotted a b c d) = Some (net.IPv4 a b c d).
Proof.
  intros Ha Hb Hc Hd. unfold net.parseIPv4, dotted.
  rewrite <- (append_empty_r (net.ubtoa d)).
  rewrite !(append_cons "."%char), !append_empty.
  rewrite parseIPv4_loop_first by done.
  rewrite parseIPv4_loop_next by (done || lia).
  rewrite parseIPv4_loop_next by (done || lia).
  rewrite parseIPv4_loop_next by (done || lia).
  reflexivity.
Qed.

(** Every byte of a parsed address fits a byte. *)
Lemma set_bytes (i v : Z) (p : list Z) :
  Forall is_byte p -> is_byte v -> Forall is_byte (net.set i v p).
Proof. intros Hp Hv. unfold net.set. by apply Forall_insert. Qed.

Lemma get_byte (p : list Z) (i : Z) : Forall is_byte p -> is_byte (net.get p i).
Proof.
  intros Hp. unfold net.get. rewrite list_lookup_total_alt.
  destruct (p !! Z.to_nat i) as [b|] eqn:Hb; simpl.
  - by eapply Forall_lookup_1.
  - unfold is_byte. simpl. lia.
Qed.

Lemma parseIPv4_loop_bytes (left : nat) :
  forall (i : Z) (s : string) (p p' : list Z),
    Forall is_byte p -> net.parseIPv4_loop left i s p = Some p' -> Forall is_byte p'.
Proof.
  induction left as [|left IH]; intros i s p p' Hp H; simpl in H.
  - destruct (len s =? 0); [by injection H as <- | discriminate].
  - destruct (len s =? 0); [discriminate|].
    destruct (0 <? i).
    + destruct (at_ s 0 =? 46); [|discriminate].
      destruct (net.dtoi (from 1 s)) as [[n c] ok].
      destruct (negb ok || (255 <? n)); [discriminate|].
      eapply IH; [|exact H]. apply set_bytes; [done | apply byte_is_byte].
    + destruct (net.dtoi s) as [[n c] ok].
      destruct (negb ok || (255 <? n)); [discriminate|].
      eapply IH; [|exact H]. apply set_bytes; [done | apply byte_is_byte].
Qed.

Lemma parseIPv4_bytes (s : string) (ip : net.IP) :
  net.parseIPv4 s = Some ip -> Forall is_byte ip.
Proof.
  unfold net.parseIPv4.
  destruct (net.parseIPv4_loop 4 0 s [0; 0; 0; 0]) as [p|] eqn:Hloop; [|discriminate].
  intros [= <-].
  assert (Hp : Forall is_byte p).
  { eapply parseIPv4_loop_bytes; [|exact Hloop].
    repeat constructor; unfold is_byte; lia. }
  unfold net.IPv4, net.v4InV6Prefix.
  repeat (constructor; [first [by apply get_byte | unfold is_byte; lia]|]).
  constructor.
Qed.

Lemma parseIPv6_loop_bytes (left : nat) :
  forall (ip : net.IP) (i e : Z) (s : string) ip' i' e' s',
    Forall is_byte ip ->
    net.parseIPv6_loop left ip i e s = Some (ip', i', e', s') ->
    Forall is_byte ip'.
Proof.
  induction left as [|left IH]; intros ip i e s ip' i' e' s' Hip H; simpl in H.
  - by injection H as <- _ _ _.
  - destruct (net.IPv6len <=? i); [by injection H as <- _ _ _|].
    destruct (net.xtoi s) as [[n c] ok].
    destruct (negb ok || (65535 <? n)); [discriminate|].
    destruct ((c <? len s) && (at_ s c =? 46)).
    + destruct ((e <? 0) && negb (i =? net.IPv6len - net.IPv4len)); [discriminate|].
      destruct (net.IPv6len <? i + net.IPv4len); [discriminate|].
      destruct (net.parseIPv4 s) as [ip4|] eqn:H4; [|discriminate].
      apply parseIPv4_bytes in H4. injection H as <- _ _ _.
      repeat apply set_bytes; try done; by apply get_byte.
    + assert (Hset : Forall is_byte
                (net.set (i + 1) (net.byte n) (net.set i (net.byte (n ≫ 8)) ip)))
        by (repeat apply set_bytes; try done; apply byte_is_byte).
      repeat match type of H with
        | context [if ?b then _ else _] => destruct b
        end; try discriminate;
        first [ by injection H as <- _ _ _ | by eapply IH; [|exact H] ].
Qed.

Lemma expand_move_bytes (count : nat) :
  forall (j n : Z) (ip : net.IP),
    Forall is_byte ip -> Forall is_byte (net.expand_move count j n ip).
Proof.
  induction count as [|k IH]; intros j n ip Hip; simpl; [done|].
  apply IH. apply set_bytes; [done | by apply get_byte].
Qed.

Lemma expand_zero_bytes (count : nat) :
  forall (j : Z) (ip : net.IP),
    Forall is_byte ip -> Forall is_byte (net.expand_zero count j ip).
Proof.
  induction count as [|k IH]; intros j ip Hip; simpl; [done|].
  apply IH. apply set_bytes; [done | unfold is_byte; lia].
Qed.

Lemma parseIPv6_bytes (s : string) (ip : net.IP) :
  net.parseIPv6 s = Some ip -> Forall is_byte ip.
Proof.
  assert (Hzero : Forall is_byte (replicate 16 0))
    by (apply Forall_replicate; unfold is_byte; lia).
  unfold net.parseIPv6. intros H.
  destruct ((2 <=? len s) && (at_ s 0 =? 58) && (at_ s 1 =? 58));
    lazy beta match zeta delta [andb] in H.
  - destruct (len (from 2 s) =? 0); [by injection H as <-|].
    destruct (net.parseIPv6_loop 8 (replicate 16 0) 0 0 (from 2 s))
      as [[[[ip1 i1] e1] s1]|] eqn:Hloop; [|discriminate].
    apply parseIPv6_loop_bytes in Hloop; [|done].
    repeat match type of H with
      | context [if ?b then _ else _] => destruct b
      end; try discriminate; injection H as <-;
      first [done | by apply expand_zero_bytes, expand_move_bytes].
  - destruct (net.parseIPv6_loop 8 (replicate 16 0) 0 (-1) s)
      as [[[[ip1 i1] e1] s1]|] eqn:Hloop; [|discriminate].
    apply parseIPv6_loop_bytes in Hloop; [|done].
    repeat match type of H with
      | context [if ?b then _ else _] => destruct b
      end; try discriminate; injection H as <-;
      first [done | by apply expand_zero_bytes, expand_move_bytes].
Qed.

Lemma ParseCIDR_bytes (s : string) (ip : net.IP) (n : net.IPNet) :
  net.ParseCIDR s = inl (ip, n) -> Forall is_byte ip.
Proof.
  unfold net.ParseCIDR. intros H.
  destruct (net.IndexByteString s 47 <? 0); [discriminate|].
  destruct (net.parseIPv4 (upto (net.IndexByteString s 47) s)) as [ip4|] eqn:H4.
  - destruct (net.dtoi (from (net.IndexByteString s 47 + 1) s)) as [[m c] ok].
    destruct (_ || _); [discriminate|]. injection H as <- _.
    by apply parseIPv4_bytes in H4.
  - destruct (net.parseIPv6 (upto (net.IndexByteString s 47) s)) as [ip6|] eqn:H6;
      destruct (net.dtoi (from (net.IndexByteString s 47 + 1) s)) as [[m c] ok];
      [|discriminate].
    destruct (_ || _); [discriminate|]. injection H as <- _.
    by apply parseIPv6_bytes in H6.
Qed.

(** X14. The derived dnsServiceIP reads back as the address it stands for.
    When serviceCIDR is non-empty and parses, dnsServiceIP is absent and the
    written address is the IPv4 address a.b.c.d, the dnsServiceIP of the
    built resource is a dotted IPv4 text that [net]'s own IPv4 parser
    accepts, and it parses to a.b.c.10: the first three octets are those
    written in serviceCIDR, whatever the prefix length. *)
Theorem derived_dns_reads_back (s : Spec) (ip : net.IP) (n : net.IPNet) (a b c d : Z) :
  ServiceCIDR s <> ""%string ->
  DNSServiceIP s = None ->
  net.ParseCIDR (ServiceCIDR s) = inl (ip, n) ->
  ip = net.IPv4 a b c d ->
  exists mc dns,
    managedCluster s = Ok mc
    /\ built_DNSServiceIP mc = Some dns
    /\ net.parseIPv4 dns = Some (net.IPv4 a b c 10).
Proof.
  intros Hcidr Hdns Hparse ->.
  assert (Hbytes := ParseCIDR_bytes _ _ _ Hparse).
  unfold net.IPv4, net.v4InV6Prefix in Hbytes. simpl in Hbytes.
  do 12 (apply Forall_cons in Hbytes as [_ Hbytes]).
  apply Forall_cons in Hbytes as [Ha Hbytes].
  apply Forall_cons in Hbytes as [Hb Hbytes].
  apply Forall_cons in Hbytes as [Hc _].
  unfold managedCluster, networkProfile.
  rewrite (bool_decide_eq_true_2 _ Hcidr), Hdns, Hparse.
  rewrite (index_set_parsed _ _ _ Hparse).
  eexists _, _. split; [reflexivity|]. split; [reflexivity|].
  rewrite IPv4_last_octet. apply parseIPv4_dotted; first [done | unfold is_byte; lia].
Qed.

Lemma derived_dns_reads_back_witness :
  ServiceCIDR spec_host_bits <> ""%string
  /\ DNSServiceIP spec_host_bits = None
  /\ exists mc dns,
       managedCluster spec_host_bits = Ok mc
       /\ built_DNSServiceIP mc = Some dns
       /\ net.parseIPv4 dns = Some (net.IPv4 10 0 5 10).
Proof.
  split; [discriminate|]. split; [reflexivity|].
  apply (derived_dns_reads_back spec_host_bits (net.IPv4 10 0 5 7)
           {| net.IPNet_IP := [10; 0; 0; 0]; net.IPNet_Mask := [255; 255; 0; 0] |}
           10 0 5 7);
    [discriminate | reflexivity | vm_compute; reflexivity | reflexivity].
Defined.

(** ** A second invocation right after the first *)
Section Settled.

Context {P : Type}.
Variable c : Client P.

(** With the desired resource built, Reconcile is a NoOp -- it returns
    success and leaves the world with its Get logged and nothing else
    changed -- exactly when the provider reports the resource as settled. *)
Lemma noop_iff_settled (s : Spec) (desired : containerservice.ManagedCluster)
  (w : World P) :
  managedCluster s = Ok desired ->
  settled c s (provider w) = true
  <-> Reconcile c (SpecPtr (Some s)) w
      = (Ok tt, logged w [CallGet (ResourceGroupName s) (Name s)]).
Proof.
  intros Hbuild. unfold settled.
  destruct (client_Get c (ResourceGroupName s) (Name s) (provider w))
    as [existing err] eqn:Hget.
  rewrite (Reconcile_table c _ _ _ _ _ Hbuild Hget). simpl.
  assert (Hlog : forall (r : result unit) (p' : P) (put : Call),
            (r, Build_World p'
                  (calls w ++ [CallGet (ResourceGroupName s) (Name s); put]))
            <> (Ok tt, logged w [CallGet (ResourceGroupName s) (Name s)])).
  { intros r p' put [= _ _ Hcalls]. by apply app_inv_head in Hcalls. }
  destruct err as [e|].
  - split; [done|]. destruct (notFound e); [by intros H%Hlog | done].
  - destruct (containerservice.ManagedClusterProperties_ existing) as [props|];
      [|by split].
    destruct (containerservice.ProvisioningState props) as [ps|]; [|by split].
    destruct (is_terminal ps); [|by split]. cbn [andb].
    rewrite diff_is_empty_normalized.
    rewrite (bool_decide_ext _ (containerservice.KubernetesVersion props = Some (Version s)))
      by (split; congruence).
    destruct (bool_decide _); [by split|].
    split; [done | by intros H%Hlog].
Qed.

(** C6 (amended). When the desired resource is built and the provider
    reports the existing resource in state Succeeded, Failed or Canceled
    with an empty normalized diff (the Kubernetes version alone), Reconcile
    returns success, issues its Get and no mutating call, and leaves the
    provider's state as it was.  Hence, of two invocations in succession with
    no change on the provider's side in between, the second is such a NoOp
    if and only if the resource it fetches is in one of those states with an
    empty diff: this is so when the first invocation was itself a NoOp, and
    also after a first invocation that wrote, once the provider reports the
    written resource as settled. *)
Theorem C6_noop_when_settled (s : Spec) (desired : containerservice.ManagedCluster) :
  managedCluster s = Ok desired ->
  let spec := SpecPtr (Some s) in
  let get := CallGet (ResourceGroupName s) (Name s) in
  (forall w : World P,
     settled c s (provider w) = true ->
     Reconcile c spec w = (Ok tt, logged w [get])
     /\ mutating_calls (new_calls (Reconcile c spec) w) = []
     /\ provider (snd (Reconcile c spec w)) = provider w)
  /\ (forall w : World P,
        let w1 := snd (Reconcile c spec w) in
        settled c s (provider w1) = true
        <-> Reconcile c spec w1 = (Ok tt, logged w1 [get]))
  /\ (forall w : World P,
        settled c s (provider w) = true ->
        Reconcile c spec (logged w [get]) = (Ok tt, logged (logged w [get]) [get])
        /\ Reconcile_twice c spec w = (Ok tt, logged (logged w [get]) [get])
        /\ provider (logged (logged w [get]) [get]) = provider w
        /\ mutating_calls [get; get] = []).
Proof.
  intros Hbuild spec get. subst spec get.
  split; [|split].
  - intros w Hw. apply (noop_iff_settled _ _ _ Hbuild) in Hw.
    unfold new_calls. rewrite Hw. simpl. rewrite drop_app_length. done.
  - intros w w1. apply (noop_iff_settled _ _ _ Hbuild).
  - intros w Hw.
    assert (H1 := proj1 (noop_iff_settled _ _ w Hbuild) Hw).
    assert (H2 := proj1 (noop_iff_settled s desired
                           (logged w [CallGet (ResourceGroupName s) (Name s)]) Hbuild) Hw).
    split; [exact H2|]. split; [|done].
    unfold Reconcile_twice, bind. rewrite H1. exact H2.
Qed.

End Settled.

Lemma C6_noop_when_settled_witness :
  managedCluster spec_16 = Ok (built spec_16)
  /\ settled up_to_date_client spec_16 tt = true
  /\ Reconcile up_to_date_client (SpecPtr (Some spec_16)) start
     = (Ok tt, logged start [CallGet "my-rg" "my-cluster"])
  /\ Reconcile_twice up_to_date_client (SpecPtr (Some spec_16)) start
     = (Ok tt, logged start [CallGet "my-rg" "my-cluster"; CallGet "my-rg" "my-cluster"])
  /\ Reconcile (store "Succeeded") (SpecPtr (Some spec_16))
       (snd (Reconcile (store "Succeeded") (SpecPtr (Some spec_16)) (Build_World None [])))
     = (Ok tt,
        Build_World (Some (stored "Succeeded" (built spec_16)))
          [CallGet "my-rg" "my-cluster";
           CallCreateOrUpdate "my-rg" "my-cluster" (built spec_16);
           CallGet "my-rg" "my-cluster"]).
Proof.
  split; [reflexivity|]. split; [reflexivity|].
  destruct (C6_noop_when_settled up_to_date_client spec_16 (built spec_16) eq_refl)
    as (Hone & _ & Htwice).
  destruct (C6_noop_when_settled (store "Succeeded") spec_16 (built spec_16) eq_refl)
    as (_ & Hsecond & _).
  split; [exact (proj1 (Hone start eq_refl))|].
  split; [exact (proj1 (proj2 (Htwice start eq_refl)))|].
  exact (proj1 (Hsecond (Build_World None [])) eq_refl).
Defined.

(** C6 as stated fails in its second half: two invocations in succession,
    with nothing changing on the provider's side, need not end in a NoOp.
    Against a provider that keeps reporting the resource as absent, the
    second invocation sends a CreateOrUpdate again; against one that keeps
    reporting the state Creating, it returns the error for a non-terminal
    state. *)
Lemma C6_counterexample :
  ~ (forall (P : Type) (c : Client P) (s : Spec) (w : World P),
       let w1 := snd (Reconcile c (SpecPtr (Some s)) w) in
       fst (Reconcile c (SpecPtr (Some s)) w1) = Ok tt
       /\ mutating_calls (new_calls (Reconcile c (SpecPtr (Some s))) w1) = []).
Proof.
  intros H.
  destruct (H unit absent_client spec_16 start) as [_ Hsent].
  vm_compute in Hsent. discriminate Hsent.
Qed.

(** A resource in transition blocks the second invocation as it blocked the
    first: the provider's state is the same at both, and the second returns
    the error for the state Creating. *)
Example second_pass_blocked_in_transition :
  let w1 := snd (Reconcile creating_client (SpecPtr (Some spec_16)) start) in
  provider w1 = provider start
  /\ Reconcile creating_client (SpecPtr (Some spec_16)) w1
     = (Err (errorString (String.append non_terminal_prefix "Creating")),
        logged w1 [CallGet "my-rg" "my-cluster"]).
Proof. split; vm_compute; reflexivity. Qed.
